(** * MCP servers of core-mcp-servers: the JSON-RPC dispatch core

    A shallow embedding of the three request handlers
    ([gov_uk_acronyms], [gov_uk_search], [wikipedia]) and of the tool
    adapters they call, followed by the properties of the dispatch core.

    Python values that reach the handlers are decoded JSON, so they are
    modelled by the inductive [json]; a Python [dict] is an association
    list in insertion order.  Python exceptions are values of [exn];
    code that may raise runs in the small monad [M], which threads the
    state of the outside world through the network calls. *)

From Stdlib Require Import String Ascii List ZArith Bool Lia.
From Stdlib Require Import SpecFloat DecimalString.
Import ListNotations.
Open Scope string_scope.
Set Warnings "-register-all".

(** ** Python values *)

Module Py.

(** A decoded JSON document, as [json.loads] builds it. *)
Inductive json : Type :=
| JNull
| JBool (b : bool)
| JInt (z : Z)
| JFloat (f : spec_float)
| JStr (s : string)
| JArr (l : list json)
| JObj (d : list (string * json)).

(** A [dict] with [str] keys, in insertion order. *)
Definition dict : Type := list (string * json).

(** The value stored under [k], if any. *)
Fixpoint lookup (d : dict) (k : string) : option json :=
  match d with
  | [] => None
  | (k', v) :: d' => if String.eqb k' k then Some v else lookup d' k
  end.

(** [bool(v)]: the truth value Python gives to [v]. *)
Definition py_bool (v : json) : bool :=
  match v with
  | JNull => false
  | JBool b => b
  | JInt z => negb (Z.eqb z 0)
  | JFloat (S754_zero _) => false
  | JFloat _ => true
  | JStr "" => false
  | JStr _ => true
  | JArr [] => false
  | JArr _ => true
  | JObj [] => false
  | JObj _ => true
  end.

(** [type(v).__name__]. *)
Definition type_name (v : json) : string :=
  match v with
  | JNull => "NoneType"
  | JBool _ => "bool"
  | JInt _ => "int"
  | JFloat _ => "float"
  | JStr _ => "str"
  | JArr _ => "list"
  | JObj _ => "dict"
  end.

(** [v == s] for a string literal [s]: only a [str] can be equal. *)
Definition eq_str (v : json) (s : string) : bool :=
  match v with
  | JStr s' => String.eqb s' s
  | _ => false
  end.

(** [str(z)] for an [int]. *)
Definition str_of_int (z : Z) : string :=
  NilZero.string_of_int (Z.to_int z).

(** The line feed of the ["\n"] literals. *)
Definition LF : string := String (ascii_of_nat 10) "".

(** [sep.join(l)]. *)
Definition join (sep : string) (l : list string) : string :=
  String.concat sep l.

(** [a in b] for two strings: [a] occurs in [b]. *)
Fixpoint contains (a b : string) : bool :=
  String.prefix a b
  || match b with
     | EmptyString => false
     | String _ b' => contains a b'
     end.

(** ** Exceptions *)

(** The exception classes the handlers and adapters name or can meet.
    All of them derive from [Exception]; interpreter exits
    ([KeyboardInterrupt], [SystemExit]) are outside the model. *)
Inductive exn_class : Type :=
| Exception
| RequestException
| HTTPError
| ConnectionError
| AttributeError
| TypeError
| LookupError
| IndexError
| KeyError
| LibraryError (name : string).

(** The direct base class. *)
Definition base (c : exn_class) : option exn_class :=
  match c with
  | Exception => None
  | HTTPError | ConnectionError => Some RequestException
  | IndexError | KeyError => Some LookupError
  | _ => Some Exception
  end.

Definition class_eqb (c d : exn_class) : bool :=
  match c, d with
  | Exception, Exception
  | RequestException, RequestException
  | HTTPError, HTTPError
  | ConnectionError, ConnectionError
  | AttributeError, AttributeError
  | TypeError, TypeError
  | LookupError, LookupError
  | IndexError, IndexError
  | KeyError, KeyError => true
  | LibraryError n, LibraryError m => String.eqb n m
  | _, _ => false
  end.

Fixpoint issubclass_upto (n : nat) (c d : exn_class) : bool :=
  class_eqb c d
  || match n, base c with
     | S n', Some b => issubclass_upto n' b d
     | _, _ => false
     end.

(** [issubclass(c, d)]; the hierarchy above is two levels deep. *)
Definition issubclass : exn_class -> exn_class -> bool := issubclass_upto 2.

(** A raised exception: its class and [str(e)]. *)
Record exn : Type := mkExn { exn_class_of : exn_class; exn_str : string }.

(** The result of running Python code: a value or a raised exception. *)
Inductive outcome (A : Type) : Type :=
| Returned (a : A)
| Raised (e : exn).
Arguments Returned {A} a.
Arguments Raised {A} e.

Definition obind {A B : Type} (c : outcome A) (k : A -> outcome B) : outcome B :=
  match c with
  | Returned a => k a
  | Raised e => Raised e
  end.

(** [getattr] failing on a value that has no such method. *)
Definition no_attribute (v : json) (attr : string) : exn :=
  mkExn AttributeError
    ("'" ++ type_name v ++ "' object has no attribute '" ++ attr ++ "'").

(** [d.get(k, default)] on a [dict]. *)
Definition dict_get (d : dict) (k : string) (default : json) : json :=
  match lookup d k with
  | Some x => x
  | None => default
  end.

(** [v.get(k, default)] on any value: only a [dict] has the method. *)
Definition py_get (v : json) (k : string) (default : json) : outcome json :=
  match v with
  | JObj d => Returned (dict_get d k default)
  | _ => Raised (no_attribute v "get")
  end.

(** [v[k]] for a string key [k] (messages of CPython 3.11). *)
Definition py_getitem (v : json) (k : string) : outcome json :=
  match v with
  | JObj d =>
      match lookup d k with
      | Some x => Returned x
      | None => Raised (mkExn KeyError ("'" ++ k ++ "'"))
      end
  | JArr _ =>
      Raised (mkExn TypeError "list indices must be integers or slices, not str")
  | JStr _ =>
      Raised (mkExn TypeError "string indices must be integers, not 'str'")
  | _ =>
      Raised (mkExn TypeError ("'" ++ type_name v ++ "' object is not subscriptable"))
  end.

(** The one-character strings a [str] iterates over. *)
Fixpoint chars (s : string) : list json :=
  match s with
  | EmptyString => []
  | String a s' => JStr (String a "") :: chars s'
  end.

(** [iter(v)], run to the end: the items a [for] loop visits. *)
Definition py_iter (v : json) : outcome (list json) :=
  match v with
  | JArr l => Returned l
  | JStr s => Returned (chars s)
  | JObj d => Returned (map (fun kv => JStr (fst kv)) d)
  | _ => Raised (mkExn TypeError ("'" ++ type_name v ++ "' object is not iterable"))
  end.

(** [l[i]] on a list, [IndexError] out of range ([i] is never negative here). *)
Definition list_getitem {A : Type} (l : list A) (i : nat) : outcome A :=
  match nth_error l i with
  | Some x => Returned x
  | None => Raised (mkExn IndexError "list index out of range")
  end.

End Py.
Export Py.

(** ** Code with effects *)

Module Eff.

(** A computation over the world state [W]: it returns or raises, and
    leaves the world as its network calls made it. *)
Definition M (W A : Type) : Type := W -> outcome A * W.

Definition ret {W A : Type} (a : A) : M W A := fun w => (Returned a, w).

Definition bind {W A B : Type} (c : M W A) (k : A -> M W B) : M W B :=
  fun w =>
    match c w with
    | (Returned a, w') => k a w'
    | (Raised e, w') => (Raised e, w')
    end.

(** Pure code that may raise, run inside [M]. *)
Definition lift {W A : Type} (c : outcome A) : M W A := fun w => (c, w).

Definition raise {W A : Type} (e : exn) : M W A := lift (Raised e).

(** One [except C as e: ...] clause. *)
Definition handler (W A : Type) : Type := (exn_class * (exn -> M W A))%type.

(** The first clause whose class the exception is an instance of. *)
Fixpoint find_handler {W A : Type} (hs : list (handler W A)) (e : exn)
  : option (exn -> M W A) :=
  match hs with
  | [] => None
  | (c, h) :: hs' =>
      if issubclass (exn_class_of e) c then Some h else find_handler hs' e
  end.

(** [try: body  except C1 as e: h1  except C2 as e: h2 ...]; an exception
    no clause matches goes on to the caller. *)
Definition try_except {W A : Type} (body : M W A) (hs : list (handler W A))
  : M W A :=
  fun w =>
    match body w with
    | (Returned a, w') => (Returned a, w')
    | (Raised e, w') =>
        match find_handler hs e with
        | Some h => h e w'
        | None => (Raised e, w')
        end
    end.

(** The same statement in pure code. *)
Definition otry {A : Type} (body : outcome A) (c : exn_class)
    (h : exn -> outcome A) : outcome A :=
  match body with
  | Returned a => Returned a
  | Raised e => if issubclass (exn_class_of e) c then h e else Raised e
  end.

End Eff.
Export Eff.

Declare Scope py_scope.
Delimit Scope py_scope with py.
Notation "x <- c ;; k" := (bind c (fun x => k))
  (at level 61, c at next level, right associativity) : py_scope.
Notation "x <~ c ;; k" := (obind c (fun x => k))
  (at level 61, c at next level, right associativity) : py_scope.
Open Scope py_scope.

(** ** The libraries the servers call *)

(** Flags of the [re] module that the sources pass. *)
Inductive re_flag : Type := re_S | re_DOTALL | re_IGNORECASE.

(** A [requests.Response], by what the sources read from it. *)
Record Response : Type := mkResponse {
  raise_for_status : outcome unit;   (* [HTTPError] on a 4xx or 5xx status *)
  text : string;
  json_body : outcome json           (* [response.json()] *)
}.

(** The library functions the sources call but do not define: string
    methods and [re], [json] and [repr] (pure), and [requests] and
    [wikipedia], whose results depend on the world [W] and may raise. *)
Class Library (W : Type) : Type := {
  (** [repr(v)], used by [str] for a [float], a [list] and a [dict]. *)
  py_repr : json -> string;
  (** [s.upper()] and [s.strip()]. *)
  str_upper : string -> string;
  str_strip : string -> string;
  (** [re.findall(pattern, s, flags)] for a pattern with one group. *)
  re_findall : string -> string -> list re_flag -> list string;
  (** [re.search(pattern, s, flags)], giving [m.group(1)] of the match. *)
  re_search : string -> string -> list re_flag -> option string;
  (** [json.dumps(l, indent=n)] on a list of strings. *)
  json_dumps : list string -> Z -> string;
  (** [requests.get(url, params=, headers=, timeout=)]. *)
  requests_get : string -> dict -> dict -> Z -> M W Response;
  (** [wikipedia.search(query)]. *)
  wikipedia_search : json -> M W (list string);
  (** [wikipedia.page(title, auto_suggest=)] and the page's [content]. *)
  WikipediaPage : Type;
  wikipedia_page : json -> bool -> M W WikipediaPage;
  page_content : WikipediaPage -> M W string;
  (** [wikipedia.summary(title, auto_suggest=)]. *)
  wikipedia_summary : json -> bool -> M W string
}.

Section PyStr.
Context {W : Type} `{Library W}.

(** [str(v)], which an f-string applies to each value it formats. *)
Definition py_str (v : json) : string :=
  match v with
  | JNull => "None"
  | JBool true => "True"
  | JBool false => "False"
  | JInt z => str_of_int z
  | JStr s => s
  | JFloat _ | JArr _ | JObj _ => py_repr v
  end.

(** [v.upper()]: a [str] method. *)
Definition py_upper (v : json) : outcome string :=
  match v with
  | JStr s => Returned (str_upper s)
  | _ => Raised (no_attribute v "upper")
  end.

(** [v.startswith(p)]: a [str] method. *)
Definition py_startswith (v : json) (p : string) : outcome bool :=
  match v with
  | JStr s => Returned (String.prefix p s)
  | _ => Raised (no_attribute v "startswith")
  end.
End PyStr.

(** ** [mcp.types] *)

Module Mcp.

(** The JSON-RPC 2.0 error codes [mcp.types] exports. *)
Definition INVALID_PARAMS : Z := -32602.
Definition INTERNAL_ERROR : Z := -32603.

(** The correlation token of a request: a string, a number or null. *)
Definition RequestId : Type := json.

Record JSONRPCRequest : Type := mkRequest {
  method : string;
  params : option dict;
  id : RequestId
}.

Record ErrorData : Type := mkErrorData { code : Z; message : string }.

(** What [handle_request] answers: [Union[JSONRPCResponse, JSONRPCError]]. *)
Inductive reply : Type :=
| JSONRPCResponse (jsonrpc : string) (result : dict) (id : RequestId)
| JSONRPCError (jsonrpc : string) (error : ErrorData) (id : RequestId).

Definition reply_jsonrpc (r : reply) : string :=
  match r with
  | JSONRPCResponse v _ _ | JSONRPCError v _ _ => v
  end.

Definition reply_id (r : reply) : RequestId :=
  match r with
  | JSONRPCResponse _ _ i | JSONRPCError _ _ i => i
  end.

(** The Lambda execution context, which no handler reads. *)
Inductive LambdaContext : Type := lambda_context.

(** [request.params] as the Python value it is: [None] or a [dict]. *)
Definition params_value (request : JSONRPCRequest) : json :=
  match params request with
  | None => JNull
  | Some d => JObj d
  end.

End Mcp.
Export Mcp.

(** ** gov_uk_acronyms/code/main.py *)

Module GovUKAcronyms.
Section Server.
Context {W : Type} `{Library W}.

(** The double quote inside the regular expressions. *)
Definition DQ : string := String (ascii_of_nat 34) "".

Definition TH_PATTERN : string :=
  "<th\s+scope=" ++ DQ ++ "row" ++ DQ ++ " class=" ++ DQ
    ++ "govuk-table__header" ++ DQ ++ ">(.*?)</th>".

Definition TD_PATTERN : string :=
  "<td\s+class=" ++ DQ ++ "govuk-table__cell" ++ DQ ++ ">(.*?)</td>".

(** One value of [data]: the dict built for a table row. *)
Record row : Type := mkRow {
  row_acronym : string;
  row_meaning : string;
  row_definition : string;
  row_department : string;
  row_team : string
}.

(** [data]: rows by upper-cased acronym, in insertion order. *)
Definition table : Type := list (string * row).

(** [data[k] = r]: a known key keeps its place, a new one goes last. *)
Fixpoint table_set (data : table) (k : string) (r : row) : table :=
  match data with
  | [] => [(k, r)]
  | (k', r') :: rest =>
      if String.eqb k' k then (k', r) :: rest
      else (k', r') :: table_set rest k r
  end.

Fixpoint table_find (data : table) (k : string) : option row :=
  match data with
  | [] => None
  | (k', r) :: rest => if String.eqb k' k then Some r else table_find rest k
  end.

(** [k in data]. *)
Definition table_mem (data : table) (k : string) : bool :=
  match table_find data k with Some _ => true | None => false end.

(** [data[k]]. *)
Definition table_getitem (data : table) (k : string) : outcome row :=
  match table_find data k with
  | Some r => Returned r
  | None => Raised (mkExn KeyError ("'" ++ k ++ "'"))
  end.

Definition ITEMS_PER_ROW : nat := 4.

(** The body of the [try] inside the loop over [enumerate(acronyms)]. *)
Definition add_row (info : list string) (data : table)
    (index : nat) (acro : string) : outcome table :=
  if Nat.ltb (index * ITEMS_PER_ROW + 3) (length info) then
    i0 <~ list_getitem info (index * ITEMS_PER_ROW) ;;
    i1 <~ list_getitem info (index * ITEMS_PER_ROW + 1) ;;
    i2 <~ list_getitem info (index * ITEMS_PER_ROW + 2) ;;
    i3 <~ list_getitem info (index * ITEMS_PER_ROW + 3) ;;
    Returned (table_set data (str_upper acro)
                (mkRow acro (str_strip i0) (str_strip i1)
                       (str_strip i2) (str_strip i3)))
  else Returned data.

(** The loop: a row that raises [IndexError] is skipped. *)
Fixpoint build_table (info : list string) (data : table) (index : nat)
    (acronyms : list string) : outcome table :=
  match acronyms with
  | [] => Returned data
  | acro :: rest =>
      data' <~ otry (add_row info data index acro) IndexError
                 (fun _ => Returned data) ;;
      build_table info data' (S index) rest
  end.

(** The loop over [partial_matches[:3]] that fills [matches_info]. *)
Fixpoint similar_lines (data : table) (keys : list string)
  : outcome (list string) :=
  match keys with
  | [] => Returned []
  | key :: rest =>
      match_data <~ table_getitem data key ;;
      lines <~ similar_lines data rest ;;
      Returned ((row_acronym match_data ++ ": " ++ row_meaning match_data)
                  :: lines)
  end.

(** [if s:] on a string. *)
Definition nonempty (s : string) : bool :=
  match s with EmptyString => false | _ => true end.

Definition search_gov_uk_acronyms (acronym : json) : M W string :=
  try_except
    (let url := "https://acronyms.toolsforcivilservants.co.uk" in
     let headers :=
       [("User-Agent",
         JStr "Mozilla/5.0 (Windows NT 10.0; Win64; x64) AppleWebKit/537.36")] in
     response <- requests_get url [] headers 10 ;;
     _ <- lift (raise_for_status response) ;;
     let html := text response in
     let acronyms := map str_strip (re_findall TH_PATTERN html [re_S]) in
     let info := map str_strip (re_findall TD_PATTERN html [re_S]) in
     data <- lift (build_table info [] 0 acronyms) ;;
     acronym_upper <- lift (py_upper acronym) ;;
     if negb (table_mem data acronym_upper) then
       let partial_matches :=
         filter (fun key => contains acronym_upper key
                            || contains key acronym_upper)
                (map fst data) in
       match partial_matches with
       | _ :: _ =>
           matches_info <- lift (similar_lines data (firstn 3 partial_matches)) ;;
           ret ("No exact match found for '" ++ py_str acronym
                  ++ "'. Similar acronyms:" ++ LF ++ join LF matches_info)
       | [] =>
           ret ("No definition found for acronym '" ++ py_str acronym
                  ++ "'. The acronym may not be in the UK government database.")
       end
     else
       match_ <- lift (table_getitem data acronym_upper) ;;
       let response_parts :=
         [row_acronym match_ ++ " stands for " ++ row_meaning match_ ++ "."] in
       let response_parts :=
         if nonempty (row_definition match_)
         then app response_parts ["Definition: " ++ row_definition match_]
         else response_parts in
       let response_parts :=
         if nonempty (row_department match_)
         then app response_parts ["Department: " ++ row_department match_]
         else response_parts in
       let response_parts :=
         if nonempty (row_team match_)
         then app response_parts ["Team: " ++ row_team match_]
         else response_parts in
       ret (join " " response_parts))
    [ (RequestException, fun e =>
         ret ("Error fetching data from UK government acronyms database: "
                ++ exn_str e));
      (Exception, fun e =>
         ret ("Error processing acronym lookup: " ++ exn_str e)) ].

(** The descriptors that [tools/list] returns. *)
Definition tools : list json :=
  [ JObj
      [ ("name", JStr "search_gov_uk_acronym");
        ("description", JStr "Search for the meaning of UK government acronyms");
        ("inputSchema",
         JObj
           [ ("type", JStr "object");
             ("properties",
              JObj
                [ ("acronym",
                   JObj
                     [ ("type", JStr "string");
                       ("title", JStr "Acronym");
                       ("description",
                        JStr "The acronym to search for (e.g., DfE, HMRC, NHS)") ]) ]);
             ("required", JArr [JStr "acronym"]);
             ("title", JStr "search_gov_uk_acronymArguments") ]);
        ("outputSchema",
         JObj
           [ ("type", JStr "object");
             ("properties",
              JObj
                [ ("result",
                   JObj
                     [ ("type", JStr "string");
                       ("title", JStr "Result");
                       ("description",
                        JStr "The meaning and details of the acronym") ]) ]);
             ("required", JArr [JStr "result"]);
             ("title", JStr "search_gov_uk_acronymOutput") ]) ] ].

(** The statements inside the [try] of [handle_request]. *)
Definition handle_request_try (request : JSONRPCRequest)
    (context : LambdaContext) : M W reply :=
  if method request =? "tools/list" then
    ret (JSONRPCResponse "2.0" [("tools", JArr tools)] (id request))
  else if method request =? "tools/call" then
    if negb (py_bool (params_value request)) then
      ret (JSONRPCError "2.0"
             (mkErrorData INVALID_PARAMS "Missing parameters") (id request))
    else
      tool_name <- lift (py_get (params_value request) "name" JNull) ;;
      if negb (eq_str tool_name "search_gov_uk_acronym") then
        ret (JSONRPCError "2.0"
               (mkErrorData INVALID_PARAMS ("Unknown tool: " ++ py_str tool_name))
               (id request))
      else
        arguments <- lift (py_get (params_value request) "arguments" (JObj [])) ;;
        acronym <- lift (py_get arguments "acronym" JNull) ;;
        if negb (py_bool acronym) then
          ret (JSONRPCError "2.0"
                 (mkErrorData INVALID_PARAMS "acronym parameter is required")
                 (id request))
        else
          result <- search_gov_uk_acronyms acronym ;;
          ret (JSONRPCResponse "2.0"
                 [ ("content",
                    JArr [JObj [("type", JStr "text"); ("text", JStr result)]]);
                   ("structuredContent", JObj [("result", JStr result)]);
                   ("isError", JBool false) ]
                 (id request))
  else if method request =? "initialize" then
    ret (JSONRPCResponse "2.0"
           [ ("protocolVersion", JStr "2024-11-05");
             ("capabilities", JObj [("tools", JObj [])]);
             ("serverInfo",
              JObj [("name", JStr "gov-uk-acronyms"); ("version", JStr "1.0.0")]) ]
           (id request))
  else if method request =? "ping" then
    ret (JSONRPCResponse "2.0" [] (id request))
  else
    ret (JSONRPCError "2.0"
           (mkErrorData (-32601) ("Method not found: " ++ method request))
           (id request)).

Definition handle_request (request : JSONRPCRequest)
    (context : LambdaContext) : M W reply :=
  try_except (handle_request_try request context)
    [ (Exception, fun e =>
         ret (JSONRPCError "2.0"
                (mkErrorData INTERNAL_ERROR (exn_str e)) (id request))) ].

End Server.
End GovUKAcronyms.

(** ** gov_uk_search/code/main.py *)

Module GovUKSearch.
Section Server.
Context {W : Type} `{Library W}.

Definition DQ : string := String (ascii_of_nat 34) "".

Definition MAIN_PATTERN : string :=
  "<main[^>]*role=" ++ DQ ++ "main" ++ DQ ++ "[^>]*id=" ++ DQ ++ "content" ++ DQ
    ++ "[^>]*class=" ++ DQ ++ "govuk-main-wrapper[^" ++ DQ ++ "]*" ++ DQ
    ++ "[^>]*>(.*?)</main>".

Definition FALLBACK_PATTERN : string :=
  "<main[^>]*role=" ++ DQ ++ "main" ++ DQ ++ "[^>]*>(.*?)</main>".

Definition extract_body_content (html_content : string) : string :=
  match re_search MAIN_PATTERN html_content [re_DOTALL; re_IGNORECASE] with
  | Some group1 => str_strip group1
  | None =>
      match re_search FALLBACK_PATTERN html_content [re_DOTALL; re_IGNORECASE] with
      | Some group1 => str_strip group1
      | None => html_content
      end
  end.

Definition scrape_url (url : string) : M W string :=
  try_except
    (response <- requests_get url [] [] 10 ;;
     _ <- lift (raise_for_status response) ;;
     let body_content := extract_body_content (text response) in
     ret body_content)
    [ (Exception, fun e => ret ("Error scraping page: " ++ exn_str e)) ].

(** The loop over [search_data["results"]] that fills [urls_to_scrape]. *)
Fixpoint collect_urls (results : list json) (urls_to_scrape : list string)
  : outcome (list string) :=
  match results with
  | [] => Returned urls_to_scrape
  | result :: rest =>
      link <~ py_get result "link" (JStr "") ;;
      keep <~ (if py_bool link
               then (b <~ py_startswith link "https://" ;; Returned (negb b))
               else Returned false) ;;
      collect_urls rest
        (if keep : bool
         then app urls_to_scrape ["https://www.gov.uk" ++ py_str link]
         else urls_to_scrape)
  end.

(** The loop over [urls_to_scrape] that fills [scraped_data]. *)
Fixpoint scrape_each (urls : list string) (scraped_data : list string)
  : M W (list string) :=
  match urls with
  | [] => ret scraped_data
  | url :: rest =>
      result <- scrape_url url ;;
      scrape_each rest (app scraped_data [result])
  end.

Definition search_gov_uk (search_term : json) : M W string :=
  let search_url := "https://www.gov.uk/api/search.json" in
  let params :=
    [("q", search_term); ("count", JInt 5); ("fields", JStr "link")] in
  try_except
    (response <- requests_get search_url params [] 20 ;;
     _ <- lift (raise_for_status response) ;;
     search_data <- lift (json_body response) ;;
     results <- lift (py_get search_data "results" JNull) ;;
     if negb (py_bool results) then
       ret ("No results found for search term: " ++ py_str search_term)
     else
       results <- lift (py_getitem search_data "results") ;;
       items <- lift (py_iter results) ;;
       urls_to_scrape <- lift (collect_urls items []) ;;
       match urls_to_scrape with
       | [] =>
           ret ("No valid links found in search results for: "
                  ++ py_str search_term)
       | _ :: _ =>
           scraped_data <- scrape_each urls_to_scrape [] ;;
           ret (json_dumps scraped_data 2)
       end)
    [ (RequestException, fun e => ret ("Error searching gov.uk: " ++ exn_str e));
      (Exception, fun e =>
         ret ("Error processing search results: " ++ exn_str e)) ].

Definition tools : list json :=
  [ JObj
      [ ("name", JStr "search_gov_uk");
        ("description",
         JStr "Searches the gov.uk website for 5 pages and returns raw HTML body content");
        ("inputSchema",
         JObj
           [ ("type", JStr "object");
             ("properties",
              JObj
                [ ("search_term",
                   JObj
                     [ ("type", JStr "string");
                       ("title", JStr "Search Term");
                       ("description",
                        JStr "The search term to search for on gov.uk") ]) ]);
             ("required", JArr [JStr "search_term"]);
             ("title", JStr "search_gov_ukArguments") ]);
        ("outputSchema",
         JObj
           [ ("type", JStr "object");
             ("properties",
              JObj
                [ ("result",
                   JObj
                     [ ("type", JStr "string");
                       ("title", JStr "Result");
                       ("description",
                        JStr "JSON string containing scraped content from gov.uk pages") ]) ]);
             ("required", JArr [JStr "result"]);
             ("title", JStr "search_gov_ukOutput") ]) ] ].

Definition handle_request_try (request : JSONRPCRequest)
    (context : LambdaContext) : M W reply :=
  if method request =? "tools/list" then
    ret (JSONRPCResponse "2.0" [("tools", JArr tools)] (id request))
  else if method request =? "tools/call" then
    if negb (py_bool (params_value request)) then
      ret (JSONRPCError "2.0"
             (mkErrorData INVALID_PARAMS "Missing parameters") (id request))
    else
      tool_name <- lift (py_get (params_value request) "name" JNull) ;;
      if negb (eq_str tool_name "search_gov_uk") then
        ret (JSONRPCError "2.0"
               (mkErrorData INVALID_PARAMS ("Unknown tool: " ++ py_str tool_name))
               (id request))
      else
        arguments <- lift (py_get (params_value request) "arguments" (JObj [])) ;;
        search_term <- lift (py_get arguments "search_term" JNull) ;;
        if negb (py_bool search_term) then
          ret (JSONRPCError "2.0"
                 (mkErrorData INVALID_PARAMS "search_term parameter is required")
                 (id request))
        else
          result <- search_gov_uk search_term ;;
          ret (JSONRPCResponse "2.0"
                 [ ("content",
                    JArr [JObj [("type", JStr "text"); ("text", JStr result)]]);
                   ("structuredContent", JObj [("result", JStr result)]);
                   ("isError", JBool false) ]
                 (id request))
  else if method request =? "initialize" then
    ret (JSONRPCResponse "2.0"
           [ ("protocolVersion", JStr "2024-11-05");
             ("capabilities", JObj [("tools", JObj [])]);
             ("serverInfo",
              JObj [("name", JStr "gov-uk-search"); ("version", JStr "1.0.0")]) ]
           (id request))
  else if method request =? "ping" then
    ret (JSONRPCResponse "2.0" [] (id request))
  else
    ret (JSONRPCError "2.0"
           (mkErrorData (-32601) ("Method not found: " ++ method request))
           (id request)).

Definition handle_request (request : JSONRPCRequest)
    (context : LambdaContext) : M W reply :=
  try_except (handle_request_try request context)
    [ (Exception, fun e =>
         ret (JSONRPCError "2.0"
                (mkErrorData INTERNAL_ERROR (exn_str e)) (id request))) ].

End Server.
End GovUKSearch.

(** ** wikipedia/code/main.py *)

Module Wikipedia.
Section Server.
Context {W : Type} `{Library W}.

Definition search_for_pages (search_term : json) : M W string :=
  try_except
    (search_results <- wikipedia_search search_term ;;
     ret (py_str (JArr (map JStr search_results))))
    [ (Exception, fun e =>
         ret ("Error getting results from wikipedia: " ++ exn_str e)) ].

Definition get_page_content (page_title : json) : M W string :=
  try_except
    (page <- wikipedia_page page_title false ;;
     page_content page)
    [ (Exception, fun e =>
         ret ("Error getting results from wikipedia: " ++ exn_str e)) ].

Definition summarise_page (topic : json) : M W string :=
  try_except
    (summary <- wikipedia_summary topic false ;;
     ret summary)
    [ (Exception, fun e =>
         ret ("Error getting results from wikipedia: " ++ exn_str e)) ].

(** A descriptor of [tools/list]; the three differ in these six strings. *)
Definition descriptor (name description param param_title param_description
    result_description : string) : json :=
  JObj
    [ ("name", JStr name);
      ("description", JStr description);
      ("inputSchema",
       JObj
         [ ("type", JStr "object");
           ("properties",
            JObj
              [ (param,
                 JObj
                   [ ("type", JStr "string");
                     ("title", JStr param_title);
                     ("description", JStr param_description) ]) ]);
           ("required", JArr [JStr param]);
           ("title", JStr (name ++ "Arguments")) ]);
      ("outputSchema",
       JObj
         [ ("type", JStr "object");
           ("properties",
            JObj
              [ ("result",
                 JObj
                   [ ("type", JStr "string");
                     ("title", JStr "Result");
                     ("description", JStr result_description) ]) ]);
           ("required", JArr [JStr "result"]);
           ("title", JStr (name ++ "Output")) ]) ].

Definition tools : list json :=
  [ descriptor "search_for_pages" "Searches wikipedia for relevant pages"
      "search_term" "Search Term" "The search term to search for on Wikipedia"
      "List of Wikipedia page titles matching the search term";
    descriptor "get_page_content"
      "Gets information about a specific page based on page title"
      "page_title" "Page Title" "The title of the Wikipedia page to retrieve"
      "Full content of the Wikipedia page";
    descriptor "summarise_page" "Summarises a given wikipedia topic"
      "topic" "Topic" "The Wikipedia topic to summarize"
      "Summary of the Wikipedia topic" ].

(** How a branch of the tool chain ends: it returns from
    [handle_request], or it falls through with [result] bound. *)
Inductive branch_end : Type :=
| Return (r : reply)
| Bound (result : string).

Definition handle_request_try (request : JSONRPCRequest)
    (context : LambdaContext) : M W reply :=
  if method request =? "tools/list" then
    ret (JSONRPCResponse "2.0" [("tools", JArr tools)] (id request))
  else if method request =? "tools/call" then
    if negb (py_bool (params_value request)) then
      ret (JSONRPCError "2.0"
             (mkErrorData INVALID_PARAMS "Missing parameters") (id request))
    else
      tool_name <- lift (py_get (params_value request) "name" JNull) ;;
      arguments <- lift (py_get (params_value request) "arguments" (JObj [])) ;;
      b <- (if eq_str tool_name "search_for_pages" then
              search_term <- lift (py_get arguments "search_term" JNull) ;;
              if negb (py_bool search_term) then
                ret (Return
                       (JSONRPCError "2.0"
                          (mkErrorData INVALID_PARAMS
                             "search_term parameter is required")
                          (id request)))
              else
                result <- search_for_pages search_term ;;
                ret (Bound result)
            else if eq_str tool_name "get_page_content" then
              page_title <- lift (py_get arguments "page_title" JNull) ;;
              if negb (py_bool page_title) then
                ret (Return
                       (JSONRPCError "2.0"
                          (mkErrorData INVALID_PARAMS
                             "page_title parameter is required")
                          (id request)))
              else
                result <- get_page_content page_title ;;
                ret (Bound result)
            else if eq_str tool_name "summarise_page" then
              topic <- lift (py_get arguments "topic" JNull) ;;
              if negb (py_bool topic) then
                ret (Return
                       (JSONRPCError "2.0"
                          (mkErrorData INVALID_PARAMS
                             "topic parameter is required")
                          (id request)))
              else
                result <- summarise_page topic ;;
                ret (Bound result)
            else
              ret (Return
                     (JSONRPCError "2.0"
                        (mkErrorData INVALID_PARAMS
                           ("Unknown tool: " ++ py_str tool_name))
                        (id request)))) ;;
      match b with
      | Return r => ret r
      | Bound result =>
          ret (JSONRPCResponse "2.0"
                 [ ("content",
                    JArr [JObj [("type", JStr "text"); ("text", JStr result)]]);
                   ("structuredContent", JObj [("result", JStr result)]);
                   ("isError", JBool false) ]
                 (id request))
      end
  else if method request =? "initialize" then
    ret (JSONRPCResponse "2.0"
           [ ("protocolVersion", JStr "2024-11-05");
             ("capabilities", JObj [("tools", JObj [])]);
             ("serverInfo",
              JObj [("name", JStr "wikipedia"); ("version", JStr "1.0.0")]) ]
           (id request))
  else if method request =? "ping" then
    ret (JSONRPCResponse "2.0" [] (id request))
  else
    ret (JSONRPCError "2.0"
           (mkErrorData (-32601) ("Method not found: " ++ method request))
           (id request)).

Definition handle_request (request : JSONRPCRequest)
    (context : LambdaContext) : M W reply :=
  try_except (handle_request_try request context)
    [ (Exception, fun e =>
         ret (JSONRPCError "2.0"
                (mkErrorData INTERNAL_ERROR (exn_str e)) (id request))) ].

End Server.
End Wikipedia.

(** ** The three servers side by side *)

Inductive server : Type := gov_uk_acronyms | gov_uk_search | wikipedia.

Section Servers.
Context {W : Type} `{Library W}.

Definition handle_request (srv : server)
  : JSONRPCRequest -> LambdaContext -> M W reply :=
  match srv with
  | gov_uk_acronyms => GovUKAcronyms.handle_request
  | gov_uk_search => GovUKSearch.handle_request
  | wikipedia => Wikipedia.handle_request
  end.

Definition handle_request_try (srv : server)
  : JSONRPCRequest -> LambdaContext -> M W reply :=
  match srv with
  | gov_uk_acronyms => GovUKAcronyms.handle_request_try
  | gov_uk_search => GovUKSearch.handle_request_try
  | wikipedia => Wikipedia.handle_request_try
  end.

(** The descriptors a server lists: its tool registry. *)
Definition tools (srv : server) : list json :=
  match srv with
  | gov_uk_acronyms => GovUKAcronyms.tools
  | gov_uk_search => GovUKSearch.tools
  | wikipedia => Wikipedia.tools
  end.

(** [serverInfo.name] of the server. *)
Definition server_name (srv : server) : string :=
  match srv with
  | gov_uk_acronyms => "gov-uk-acronyms"
  | gov_uk_search => "gov-uk-search"
  | wikipedia => "wikipedia"
  end.

(** The adapter function a server calls for a tool name. *)
Definition adapter (srv : server) (tool : string)
  : option (json -> M W string) :=
  match srv with
  | gov_uk_acronyms =>
      if tool =? "search_gov_uk_acronym"
      then Some GovUKAcronyms.search_gov_uk_acronyms else None
  | gov_uk_search =>
      if tool =? "search_gov_uk" then Some GovUKSearch.search_gov_uk else None
  | wikipedia =>
      if tool =? "search_for_pages" then Some Wikipedia.search_for_pages
      else if tool =? "get_page_content" then Some Wikipedia.get_page_content
      else if tool =? "summarise_page" then Some Wikipedia.summarise_page
      else None
  end.

(** [v[k]] read off a descriptor, [JNull] where there is no such key. *)
Definition field (v : json) (k : string) : json :=
  match v with
  | JObj d => match lookup d k with Some x => x | None => JNull end
  | _ => JNull
  end.

(** The strings of a JSON array. *)
Definition strings (v : json) : list string :=
  match v with
  | JArr l => flat_map (fun x => match x with JStr s => [s] | _ => [] end) l
  | _ => []
  end.

(** The parameters a descriptor's [inputSchema] declares required. *)
Definition required (descriptor : json) : list string :=
  strings (field (field descriptor "inputSchema") "required").

(** [name] is the name of a tool of [srv], letter for letter. *)
Definition registered (srv : server) (name : json) : Prop :=
  exists descriptor, In descriptor (tools srv) /\ field descriptor "name" = name.

(** The [result] of a successful [tools/call] around the string [s]. *)
Definition call_result (s : string) : dict :=
  [ ("content", JArr [JObj [("type", JStr "text"); ("text", JStr s)]]);
    ("structuredContent", JObj [("result", JStr s)]);
    ("isError", JBool false) ].

(** The [result] of [initialize]. *)
Definition capabilities (srv : server) : dict :=
  [ ("protocolVersion", JStr "2024-11-05");
    ("capabilities", JObj [("tools", JObj [])]);
    ("serverInfo",
     JObj [("name", JStr (server_name srv)); ("version", JStr "1.0.0")]) ].

(** The clause of the [except Exception] that closes every [handle_request]. *)
Definition internal_error (request : JSONRPCRequest) : handler W reply :=
  (Exception, fun e =>
     ret (JSONRPCError "2.0" (mkErrorData INTERNAL_ERROR (exn_str e))
            (id request))).

(** The adapter [f] is total at its boundary, and answers a failure [e]
    of its first lookup [c] with the text [describe e]. *)
Definition boundary {A : Type} (f : M W string) (c : M W A)
    (describe : exn -> string) : Prop :=
  forall w,
    (exists s w', f w = (Returned s, w'))
    /\ (forall e w', c w = (Raised e, w') ->
                     f w = (Returned (describe e), w')).

(** A reply that answers [request]: a JSONRPCResponse or a JSONRPCError,
    with [jsonrpc] "2.0" and the id of the request. *)
Definition answers (request : JSONRPCRequest) (r : reply) : Prop :=
  (exists result, r = JSONRPCResponse "2.0" result (id request))
  \/ (exists error, r = JSONRPCError "2.0" error (id request)).

(** A computation that returns from every world. *)
Definition returns {A : Type} (c : M W A) : Prop :=
  forall w, exists a w', c w = (Returned a, w').

(** Whatever [c] returns satisfies [P] (it may raise instead). *)
Definition yields {A : Type} (c : M W A) (P : A -> Prop) : Prop :=
  forall w, match fst (c w) with Returned a => P a | Raised _ => True end.

End Servers.

(** ** A canned world, to run the servers on concrete requests *)

Module Stub.

(** The world is the log of the URLs and queries asked so far. *)
Definition world : Type := list string.

Definition upper_ascii (a : ascii) : ascii :=
  let n := nat_of_ascii a in
  if (Nat.leb 97 n && Nat.leb n 122)%bool then ascii_of_nat (n - 32) else a.

Fixpoint upper (s : string) : string :=
  match s with
  | EmptyString => EmptyString
  | String a s' => String (upper_ascii a) (upper s')
  end.

(** The glossary page: two acronyms, four cells each. *)
Definition findall (pattern html : string) (flags : list re_flag) : list string :=
  if pattern =? GovUKAcronyms.TH_PATTERN then ["NHS"; "DfE"]
  else if pattern =? GovUKAcronyms.TD_PATTERN then
    ["National Health Service"; ""; ""; "";
     "Department for Education"; "Schools and skills"; "DfE"; ""]
  else [].

Definition get (url : string) (params headers : dict) (timeout : Z)
  : M world Response :=
  fun w =>
    (Returned
       (mkResponse (Returned tt) "<html>"
          (Returned (JObj [("results", JArr [JObj [("link", JStr "/vat")]])]))),
     url :: w).

#[global] Instance library : Library world := {|
  py_repr := fun _ => "<repr>";
  str_upper := upper;
  str_strip := fun s => s;
  re_findall := findall;
  re_search := fun _ _ _ => None;
  json_dumps := fun l _ => "[" ++ String.concat ", " l ++ "]";
  requests_get := get;
  wikipedia_search := fun q w => (Returned ["Alan Turing"], "search" :: w);
  WikipediaPage := string;
  wikipedia_page := fun t _ w => (Returned "Alan Turing", "page" :: w);
  page_content := fun p w => (Returned (p ++ " was a mathematician."), w);
  wikipedia_summary := fun t _ w =>
    (Raised (mkExn (LibraryError "PageError") "Page id does not match any pages."),
     "summary" :: w)
|}.

Definition call (name : string) (arguments : dict) : JSONRPCRequest :=
  mkRequest "tools/call"
    (Some [("name", JStr name); ("arguments", JObj arguments)]) (JInt 1).

End Stub.

(** ** Reference definitions

    What the loops and chains of the sources compute, written as plain
    functions; the properties below relate the embedded code to them. *)

Section Reference.
Context {W : Type} `{Library W}.

(** Row [index] of the glossary has its four cells in [info]. *)
Definition complete (info : list string) (index : nat) : bool :=
  Nat.ltb (index * GovUKAcronyms.ITEMS_PER_ROW + 3) (length info).

(** The row the glossary gives for the header [acro] at position [index]. *)
Definition row_at (info : list string) (index : nat) (acro : string)
  : GovUKAcronyms.row :=
  GovUKAcronyms.mkRow acro
    (str_strip (nth (index * GovUKAcronyms.ITEMS_PER_ROW) info ""))
    (str_strip (nth (index * GovUKAcronyms.ITEMS_PER_ROW + 1) info ""))
    (str_strip (nth (index * GovUKAcronyms.ITEMS_PER_ROW + 2) info ""))
    (str_strip (nth (index * GovUKAcronyms.ITEMS_PER_ROW + 3) info "")).

(** The last complete row, from position [index] on, whose header is [k]
    once upper-cased. *)
Fixpoint last_row (info : list string) (index : nat) (acronyms : list string)
    (k : string) : option GovUKAcronyms.row :=
  match acronyms with
  | [] => None
  | acro :: rest =>
      match last_row info (S index) rest k with
      | Some r => Some r
      | None =>
          if (complete info index && (str_upper acro =? k))%bool
          then Some (row_at info index acro)
          else None
      end
  end.

(** A labelled part of the answer, left out when the cell is empty. *)
Definition opt_part (label s : string) : string :=
  match s with
  | EmptyString => ""
  | _ => " " ++ label ++ s
  end.

(** The answer for an acronym found in the table. *)
Definition exact_answer (r : GovUKAcronyms.row) : string :=
  GovUKAcronyms.row_acronym r ++ " stands for "
    ++ GovUKAcronyms.row_meaning r ++ "."
    ++ opt_part "Definition: " (GovUKAcronyms.row_definition r)
    ++ opt_part "Department: " (GovUKAcronyms.row_department r)
    ++ opt_part "Team: " (GovUKAcronyms.row_team r).

(** A link of the search results that is scraped: not empty, and not an
    absolute [https://] address. *)
Definition keep_link (link : string) : bool :=
  (GovUKAcronyms.nonempty link && negb (String.prefix "https://" link))%bool.

(** The request [search_gov_uk_acronyms] sends for the glossary page. *)
Definition glossary_request : M W Response :=
  requests_get "https://acronyms.toolsforcivilservants.co.uk" []
    [("User-Agent",
      JStr "Mozilla/5.0 (Windows NT 10.0; Win64; x64) AppleWebKit/537.36")]
    10.

(** The row headers and the cells found in the page of a response. *)
Definition glossary_headers (response : Response) : list string :=
  map str_strip
    (re_findall GovUKAcronyms.TH_PATTERN (text response) [re_S]).

Definition glossary_cells (response : Response) : list string :=
  map str_strip
    (re_findall GovUKAcronyms.TD_PATTERN (text response) [re_S]).

(** The keys of the table that contain [up] or are contained in it. *)
Definition similar (data : GovUKAcronyms.table) (up : string) : list string :=
  filter (fun key => (contains up key || contains key up)%bool) (map fst data).

(** The line shown for a similar key. *)
Definition similar_line (data : GovUKAcronyms.table) (key : string) : string :=
  match GovUKAcronyms.table_find data key with
  | Some r => GovUKAcronyms.row_acronym r ++ ": " ++ GovUKAcronyms.row_meaning r
  | None => ""
  end.

(** The answer of [search_gov_uk_acronyms] as a function of the table. *)
Definition glossary_answer (data : GovUKAcronyms.table) (acronym : json)
  : string :=
  match acronym with
  | JStr a =>
      match GovUKAcronyms.table_find data (str_upper a) with
      | Some r => exact_answer r
      | None =>
          match similar data (str_upper a) with
          | [] =>
              "No definition found for acronym '" ++ a
                ++ "'. The acronym may not be in the UK government database."
          | keys =>
              "No exact match found for '" ++ a ++ "'. Similar acronyms:" ++ LF
                ++ join LF (map (similar_line data) (firstn 3 keys))
          end
      end
  | _ =>
      "Error processing acronym lookup: '" ++ type_name acronym
        ++ "' object has no attribute 'upper'"
  end.

(** The request [search_gov_uk] sends to the search API. *)
Definition search_request (search_term : json) : M W Response :=
  requests_get "https://www.gov.uk/api/search.json"
    [("q", search_term); ("count", JInt 5); ("fields", JStr "link")] [] 20.

(** The search result [result] is an object whose link is the string
    [link], the empty string when it has none. *)
Definition link_of (result : json) (link : string) : Prop :=
  exists d, result = JObj d /\ dict_get d "link" (JStr "") = JStr link.

(** The address scraped for a link. *)
Definition gov_uk_url (link : string) : string := "https://www.gov.uk" ++ link.

(** The text [scrape_url] answers with for a response. *)
Definition scraped (response : Response) : string :=
  match raise_for_status response with
  | Returned _ => GovUKSearch.extract_body_content (text response)
  | Raised e => "Error scraping page: " ++ exn_str e
  end.

(** An error reply to [request]. *)
Definition error_reply (request : JSONRPCRequest) (code : Z) (message : string)
  : reply :=
  JSONRPCError "2.0" (mkErrorData code message) (id request).

(** The registry entry of [srv] for the name [name]: the first listed tool
    with that name, with its required parameter and its adapter. *)
Definition find_tool (srv : server) (name : json)
  : option (string * string * (json -> M W string)) :=
  match
    find (fun d => match field d "name" with
                   | JStr tool => eq_str name tool
                   | _ => false
                   end)
         (tools srv)
  with
  | Some d =>
      match field d "name", required d with
      | JStr tool, [k] =>
          match adapter srv tool with
          | Some f => Some (tool, k, f)
          | None => None
          end
      | _, _ => None
      end
  | None => None
  end.

(** One dispatcher for the three servers, driven by the registry: the
    method router and the tool invocation as the design describes them. *)
Definition registry_dispatch (srv : server) (request : JSONRPCRequest)
  : M W reply :=
  fun w =>
    if method request =? "tools/list" then
      (Returned
         (JSONRPCResponse "2.0" [("tools", JArr (tools srv))] (id request)), w)
    else if method request =? "tools/call" then
      match params request with
      | None | Some [] =>
          (Returned (error_reply request INVALID_PARAMS "Missing parameters"), w)
      | Some p =>
          let name := dict_get p "name" JNull in
          match find_tool srv name with
          | None =>
              (Returned
                 (error_reply request INVALID_PARAMS
                    ("Unknown tool: " ++ py_str name)), w)
          | Some (_, k, f) =>
              match dict_get p "arguments" (JObj []) with
              | JObj arguments =>
                  let v := dict_get arguments k JNull in
                  if py_bool v then
                    match f v w with
                    | (Returned s, w') =>
                        (Returned
                           (JSONRPCResponse "2.0" (call_result s) (id request)),
                         w')
                    | (Raised e, w') =>
                        (Returned
                           (error_reply request INTERNAL_ERROR (exn_str e)), w')
                    end
                  else
                    (Returned
                       (error_reply request INVALID_PARAMS
                          (k ++ " parameter is required")), w)
              | other =>
                  (Returned
                     (error_reply request INTERNAL_ERROR
                        (exn_str (no_attribute other "get"))), w)
              end
          end
      end
    else if method request =? "initialize" then
      (Returned (JSONRPCResponse "2.0" (capabilities srv) (id request)), w)
    else if method request =? "ping" then
      (Returned (JSONRPCResponse "2.0" [] (id request)), w)
    else
      (Returned
         (error_reply request (-32601) ("Method not found: " ++ method request)),
       w).

(** A [tools/call] request for [tool] with the one argument [k]. *)
Definition tool_call (tool k : string) (v : json) (i : RequestId)
  : JSONRPCRequest :=
  mkRequest "tools/call"
    (Some [("name", JStr tool); ("arguments", JObj [(k, v)])]) i.

(** The reply that carries the text [s] of an adapter. *)
Definition text_reply (s : string) (i : RequestId) : reply :=
  JSONRPCResponse "2.0"
    [ ("content", JArr [JObj [("type", JStr "text"); ("text", JStr s)]]);
      ("structuredContent", JObj [("result", JStr s)]);
      ("isError", JBool false) ]
    i.

(** The value a [tools/call] with params [p] gives for the parameter [k]:
    what [arguments] holds under [k]; nothing when [arguments] holds no
    such key, or holds no key at all because it is not a mapping. *)
Definition argument (p : dict) (k : string) : option json :=
  match dict_get p "arguments" (JObj []) with
  | JObj arguments => lookup arguments k
  | _ => None
  end.

(** The rule for required parameters read without a condition on
    [arguments]: on [request], a required parameter of the named tool that
    is absent from the arguments, or present but empty, is answered with
    INVALID_PARAMS and a message that names it. *)
Definition missing_argument_rejected (srv : server) (request : JSONRPCRequest)
    (context : LambdaContext) (w : W) : Prop :=
  forall (p : dict) (descriptor : json) (k : string),
    method request = "tools/call" ->
    params request = Some p ->
    In descriptor (tools srv) ->
    lookup p "name" = Some (field descriptor "name") ->
    In k (required descriptor) ->
    argument p k = None
    \/ (exists v, argument p k = Some v /\ py_bool v = false) ->
    handle_request srv request context w
    = (Returned
         (JSONRPCError "2.0"
            (mkErrorData (-32602) (k ++ " parameter is required"))
            (id request)),
       w).

(** What [scrape_url] records for [url]: the content of the page, or the
    error text of a request that raised or came back with a bad status. *)
Definition scrape_text (url : string) (w : W) : string * W :=
  match requests_get url [] [] 10 w with
  | (Returned response, w1) => (scraped response, w1)
  | (Raised e, w1) => ("Error scraping page: " ++ exn_str e, w1)
  end.

(** The texts recorded for a list of addresses, scraped one after the
    other. *)
Fixpoint scrape_texts (urls : list string) (w : W) : list string * W :=
  match urls with
  | [] => ([], w)
  | url :: rest =>
      let (page, w1) := scrape_text url w in
      let (pages, w2) := scrape_texts rest w1 in
      (page :: pages, w2)
  end.

End Reference.

(** ** Canned worlds with knobs *)

Module Canned.

(** A library whose glossary page has the given headers and cells, whose
    HTTP responses have the given status and JSON body, and whose
    Wikipedia page has the given content. *)
Definition library (headers cells : list string) (status : outcome unit)
    (body : outcome json) (content : outcome string) : Library Stub.world := {|
  py_repr := fun _ => "<repr>";
  str_upper := Stub.upper;
  str_strip := fun s => s;
  re_findall := fun pattern _ _ =>
    if pattern =? GovUKAcronyms.TH_PATTERN then headers
    else if pattern =? GovUKAcronyms.TD_PATTERN then cells
    else [];
  re_search := fun _ _ _ => None;
  json_dumps := fun l _ => "[" ++ String.concat ", " l ++ "]";
  requests_get := fun url _ _ _ w =>
    (Returned (mkResponse status ("<html>" ++ url) body), url :: w);
  wikipedia_search := fun q w => (Returned ["Alan Turing"], "search" :: w);
  WikipediaPage := string;
  wikipedia_page := fun t _ w => (Returned "Alan Turing", "page" :: w);
  page_content := fun p w => (content, "content" :: w);
  wikipedia_summary := fun t _ w => (Returned "A summary.", "summary" :: w)
|}.

(** The glossary with the same acronym on two rows, the third row cut short. *)
Definition glossary : Library Stub.world :=
  library ["NHS"; "Nhs"; "DfE"]
    ["National Health Service"; ""; ""; "";
     "National Health Service (England)"; "Health care"; "DHSC"; "";
     "Department for Education"; "Schools"]
    (Returned tt) (Returned JNull) (Returned "").

(** A glossary page without a table. *)
Definition blank : Library Stub.world :=
  library [] [] (Returned tt) (Returned JNull) (Returned "").

(** A search that answers with the given JSON body. *)
Definition search (body : json) : Library Stub.world :=
  library [] [] (Returned tt) (Returned body) (Returned "").

(** The body of a search with one relative and one absolute link. *)
Definition two_links : json :=
  JObj [("results",
         JArr [ JObj [("link", JStr "/vat")];
                JObj [("link", JStr "https://www.example.org/vat")] ])].

(** A Wikipedia whose pages are found but cannot be read. *)
Definition unreadable : Library Stub.world :=
  library [] [] (Returned tt) (Returned JNull)
    (Raised (mkExn (LibraryError "HTTPTimeoutError") "Searching took too long."))
    .

(** A site that answers every request with a 404 status. *)
Definition not_found : Library Stub.world :=
  library [] []
    (Raised (mkExn HTTPError "404 Client Error: Not Found for url"))
    (Returned JNull) (Returned "").

(** A site where one page cannot be reached. *)
Definition patchy : Library Stub.world := {|
  py_repr := fun _ => "<repr>";
  str_upper := Stub.upper;
  str_strip := fun s => s;
  re_findall := fun _ _ _ => [];
  re_search := fun _ _ _ => None;
  json_dumps := fun l _ => "[" ++ String.concat ", " l ++ "]";
  requests_get := fun url _ _ _ w =>
    if url =? "https://www.gov.uk/gone"
    then (Raised (mkExn ConnectionError "Connection refused"), url :: w)
    else (Returned (mkResponse (Returned tt) ("<html>" ++ url) (Returned JNull)),
          url :: w);
  wikipedia_search := fun q w => (Returned [], w);
  WikipediaPage := string;
  wikipedia_page := fun t _ w => (Returned "", w);
  page_content := fun p w => (Returned "", w);
  wikipedia_summary := fun t _ w => (Returned "", w)
|}.

End Canned.

(** * Properties *)

(** ** Exceptions and [try] *)

Lemma issubclass_Exception (c : exn_class) : issubclass c Exception = true.
Proof. destruct c; reflexivity. Qed.

Section TryExcept.
Context {W : Type} `{Library W} {A : Type}.

(** A last clause [except Exception] is found for whatever no earlier
    clause took. *)
Lemma find_handler_Exception (hs : list (handler W A)) (h : exn -> M W A)
    (e : exn) :
  exists h', find_handler (hs ++ [(Exception, h)]) e = Some h'
             /\ (h' = h \/ In h' (map snd hs)).
Proof.
  induction hs as [|[c h0] hs IH]; simpl.
  - rewrite issubclass_Exception. eauto.
  - destruct (issubclass (exn_class_of e) c).
    + eauto.
    + destruct IH as (h' & -> & [->|Hin]); eauto.
Qed.

(** A [try] whose clauses end in [except Exception], and whose clauses
    all return, returns. *)
Lemma try_except_returns (body : M W A) (hs : list (handler W A))
    (h : exn -> M W A) :
  (forall e, returns (h e)) ->
  (forall h' e, In h' (map snd hs) -> returns (h' e)) ->
  returns (try_except body (hs ++ [(Exception, h)])).
Proof.
  intros Hh Hhs w. unfold try_except.
  destruct (body w) as [[a|e] w1].
  - eauto.
  - destruct (find_handler_Exception hs h e) as (h' & -> & [->|Hin]).
    + apply Hh.
    + apply (Hhs _ _ Hin).
Qed.

Lemma ret_returns (a : A) : returns (ret (W := W) a).
Proof. intros w. unfold ret. eauto. Qed.
End TryExcept.

(** ** The adapters *)

Section Adapters.
Context {W : Type} `{Library W}.

Lemma search_gov_uk_acronyms_returns (acronym : json) :
  returns (GovUKAcronyms.search_gov_uk_acronyms acronym).
Proof.
  unfold GovUKAcronyms.search_gov_uk_acronyms.
  match goal with
  | |- returns (try_except ?b [?h1; (Exception, ?h)]) =>
      apply (try_except_returns b [h1] h)
  end.
  - intros e. apply ret_returns.
  - intros h' e [<-|[]]. apply ret_returns.
Qed.

Lemma scrape_url_returns (url : string) : returns (GovUKSearch.scrape_url url).
Proof.
  unfold GovUKSearch.scrape_url.
  match goal with
  | |- returns (try_except ?b [(Exception, ?h)]) =>
      apply (try_except_returns b [] h)
  end.
  - intros e. apply ret_returns.
  - intros h' e [].
Qed.

Lemma search_gov_uk_returns (search_term : json) :
  returns (GovUKSearch.search_gov_uk search_term).
Proof.
  unfold GovUKSearch.search_gov_uk.
  match goal with
  | |- returns (try_except ?b [?h1; (Exception, ?h)]) =>
      apply (try_except_returns b [h1] h)
  end.
  - intros e. apply ret_returns.
  - intros h' e [<-|[]]. apply ret_returns.
Qed.

Lemma search_for_pages_returns (search_term : json) :
  returns (Wikipedia.search_for_pages search_term).
Proof.
  unfold Wikipedia.search_for_pages.
  match goal with
  | |- returns (try_except ?b [(Exception, ?h)]) =>
      apply (try_except_returns b [] h)
  end.
  - intros e. apply ret_returns.
  - intros h' e [].
Qed.

Lemma get_page_content_returns (page_title : json) :
  returns (Wikipedia.get_page_content page_title).
Proof.
  unfold Wikipedia.get_page_content.
  match goal with
  | |- returns (try_except ?b [(Exception, ?h)]) =>
      apply (try_except_returns b [] h)
  end.
  - intros e. apply ret_returns.
  - intros h' e [].
Qed.

Lemma summarise_page_returns (topic : json) :
  returns (Wikipedia.summarise_page topic).
Proof.
  unfold Wikipedia.summarise_page.
  match goal with
  | |- returns (try_except ?b [(Exception, ?h)]) =>
      apply (try_except_returns b [] h)
  end.
  - intros e. apply ret_returns.
  - intros h' e [].
Qed.

(** A failure of the first statement of a [try] goes to its clauses. *)
Lemma try_except_first_Raised {A B : Type} (c : M W A) (k : A -> M W B)
    (hs : list (handler W B)) (h : exn -> M W B) (w w' : W) (e : exn) :
  c w = (Raised e, w') ->
  find_handler hs e = Some h ->
  try_except (bind c k) hs w = h e w'.
Proof.
  intros E F. unfold try_except, bind. rewrite E, F. reflexivity.
Qed.

(** C3. Every adapter function is total at its boundary: whatever value
    it is given, and whatever the lookups behind it do (return or raise,
    in any state of the world), [search_gov_uk_acronyms],
    [search_gov_uk], [search_for_pages], [get_page_content] and
    [summarise_page] return a string to the caller and never raise; a
    lookup that fails is answered with an error text that carries the
    message of the failure. *)
Theorem adapters_total (input : json) :
  boundary (GovUKAcronyms.search_gov_uk_acronyms input)
    (requests_get "https://acronyms.toolsforcivilservants.co.uk" []
       [("User-Agent",
         JStr "Mozilla/5.0 (Windows NT 10.0; Win64; x64) AppleWebKit/537.36")]
       10)
    (fun e =>
       if issubclass (exn_class_of e) RequestException
       then "Error fetching data from UK government acronyms database: "
              ++ exn_str e
       else "Error processing acronym lookup: " ++ exn_str e)
  /\ boundary (GovUKSearch.search_gov_uk input)
       (requests_get "https://www.gov.uk/api/search.json"
          [("q", input); ("count", JInt 5); ("fields", JStr "link")] [] 20)
       (fun e =>
          if issubclass (exn_class_of e) RequestException
          then "Error searching gov.uk: " ++ exn_str e
          else "Error processing search results: " ++ exn_str e)
  /\ boundary (Wikipedia.search_for_pages input) (wikipedia_search input)
       (fun e => "Error getting results from wikipedia: " ++ exn_str e)
  /\ boundary (Wikipedia.get_page_content input) (wikipedia_page input false)
       (fun e => "Error getting results from wikipedia: " ++ exn_str e)
  /\ boundary (Wikipedia.summarise_page input) (wikipedia_summary input false)
       (fun e => "Error getting results from wikipedia: " ++ exn_str e).
Proof.
  repeat apply conj; intros w; split.
  - apply search_gov_uk_acronyms_returns.
  - intros e w' E. unfold GovUKAcronyms.search_gov_uk_acronyms.
    destruct (issubclass (exn_class_of e) RequestException) eqn:C;
      erewrite try_except_first_Raised by (eassumption
            || (simpl; rewrite C, ?issubclass_Exception; reflexivity));
      reflexivity.
  - apply search_gov_uk_returns.
  - intros e w' E. unfold GovUKSearch.search_gov_uk.
    destruct (issubclass (exn_class_of e) RequestException) eqn:C;
      erewrite try_except_first_Raised by (eassumption
            || (simpl; rewrite C, ?issubclass_Exception; reflexivity));
      reflexivity.
  - apply search_for_pages_returns.
  - intros e w' E. unfold Wikipedia.search_for_pages.
    erewrite try_except_first_Raised
      by (eassumption || (simpl; rewrite issubclass_Exception; reflexivity)).
    reflexivity.
  - apply get_page_content_returns.
  - intros e w' E. unfold Wikipedia.get_page_content.
    erewrite try_except_first_Raised
      by (eassumption || (simpl; rewrite issubclass_Exception; reflexivity)).
    reflexivity.
  - apply summarise_page_returns.
  - intros e w' E. unfold Wikipedia.summarise_page.
    erewrite try_except_first_Raised
      by (eassumption || (simpl; rewrite issubclass_Exception; reflexivity)).
    reflexivity.
Qed.
End Adapters.

(** ** The dispatcher *)

Lemma eq_str_true (v : json) (s : string) : eq_str v s = true <-> v = JStr s.
Proof.
  destruct v; simpl; try (split; [discriminate | discriminate]).
  rewrite String.eqb_eq. split; [intros -> | intros [= ->]]; reflexivity.
Qed.

Section Dispatcher.
Context {W : Type} `{Library W}.

Lemma handle_request_unfold (srv : server) (request : JSONRPCRequest)
    (context : LambdaContext) :
  handle_request srv request context
  = try_except (handle_request_try srv request context)
      [internal_error request].
Proof. destruct srv; reflexivity. Qed.

Lemma try_except_Returned {A : Type} (body : M W A) (hs : list (handler W A))
    (w w' : W) (a : A) :
  body w = (Returned a, w') -> try_except body hs w = (Returned a, w').
Proof. intros E. unfold try_except. rewrite E. reflexivity. Qed.

Lemma try_except_Raised {A : Type} (body : M W A) (h : exn -> M W A)
    (w w' : W) (e : exn) :
  body w = (Raised e, w') -> try_except body [(Exception, h)] w = h e w'.
Proof.
  intros E. unfold try_except. rewrite E. simpl.
  rewrite issubclass_Exception. reflexivity.
Qed.

(** What the body returns, [handle_request] returns. *)
Lemma handle_request_Returned (srv : server) (request : JSONRPCRequest)
    (context : LambdaContext) (w w' : W) (r : reply) :
  handle_request_try srv request context w = (Returned r, w') ->
  handle_request srv request context w = (Returned r, w').
Proof. rewrite handle_request_unfold. apply try_except_Returned. Qed.

(** C5. A request whose method is none of [initialize], [ping],
    [tools/list] and [tools/call] is answered by a JSONRPCError with code
    -32601 and the message "Method not found: " followed by the method. *)
Theorem unknown_method_not_found (srv : server) (request : JSONRPCRequest)
    (context : LambdaContext) (w : W) :
  method request <> "initialize" ->
  method request <> "ping" ->
  method request <> "tools/list" ->
  method request <> "tools/call" ->
  handle_request srv request context w
  = (Returned
       (JSONRPCError "2.0"
          (mkErrorData (-32601) ("Method not found: " ++ method request))
          (id request)),
     w).
Proof.
  intros Hi Hp Hl Hc. apply handle_request_Returned.
  apply String.eqb_neq in Hi, Hp, Hl, Hc.
  destruct srv; simpl;
    unfold GovUKAcronyms.handle_request_try, GovUKSearch.handle_request_try,
      Wikipedia.handle_request_try;
    rewrite Hi, Hp, Hl, Hc; reflexivity.
Qed.

(** C6. A [tools/call] request whose params are absent (null) or an empty
    mapping is answered by a JSONRPCError with code -32602
    (INVALID_PARAMS) and the message "Missing parameters". *)
Theorem tools_call_missing_params (srv : server) (request : JSONRPCRequest)
    (context : LambdaContext) (w : W) :
  method request = "tools/call" ->
  params request = None \/ params request = Some [] ->
  handle_request srv request context w
  = (Returned
       (JSONRPCError "2.0" (mkErrorData (-32602) "Missing parameters")
          (id request)),
     w).
Proof.
  intros Hm Hp. apply handle_request_Returned.
  destruct request as [m p i]. simpl in Hm, Hp. subst m.
  destruct Hp as [-> | ->]; destruct srv; reflexivity.
Qed.

(** C9. [initialize] and [ping] succeed whatever the params are, null
    included: [initialize] returns the fixed capability descriptor (a
    protocol version string, the [{tools: {}}] capabilities and a
    serverInfo with name and version), [ping] an empty result. *)
Theorem initialize_and_ping (srv : server) (p : option dict) (i : RequestId)
    (context : LambdaContext) (w : W) :
  handle_request srv (mkRequest "initialize" p i) context w
  = (Returned
       (JSONRPCResponse "2.0"
          [ ("protocolVersion", JStr "2024-11-05");
            ("capabilities", JObj [("tools", JObj [])]);
            ("serverInfo",
             JObj [("name", JStr (server_name srv));
                   ("version", JStr "1.0.0")]) ]
          i),
     w)
  /\ handle_request srv (mkRequest "ping" p i) context w
     = (Returned (JSONRPCResponse "2.0" [] i), w).
Proof. split; destruct srv; reflexivity. Qed.

(** C4. An exception that escapes the handling of a request, whatever
    the method, is caught by the dispatcher: the answer is a well-formed
    JSONRPCError with code -32603 (INTERNAL_ERROR) whose message is the
    text of the exception, and nothing is raised to the caller. *)
Theorem uncaught_exception_internal_error (srv : server)
    (request : JSONRPCRequest) (context : LambdaContext) (w w' : W) (e : exn) :
  handle_request_try srv request context w = (Raised e, w') ->
  handle_request srv request context w
  = (Returned
       (JSONRPCError "2.0" (mkErrorData (-32603) (exn_str e)) (id request)),
     w').
Proof.
  intros E. rewrite handle_request_unfold. unfold internal_error.
  rewrite (try_except_Raised _ _ _ _ _ E). reflexivity.
Qed.
Lemma lift_run {A : Type} (c : outcome A) (w : W) : lift c w = (c, w).
Proof. reflexivity. Qed.

(** A name that fails the test of a branch is not the name of that tool. *)
Lemma not_registered_eq_str (srv : server) (name : json) (tool : string) :
  ~ registered srv name ->
  In (JStr tool) (map (fun d => field d "name") (tools srv)) ->
  eq_str name tool = false.
Proof.
  intros Hn Hin. destruct (eq_str name tool) eqn:E; [|reflexivity].
  apply eq_str_true in E. subst name. exfalso. apply Hn.
  apply in_map_iff in Hin. destruct Hin as (d & Hd & Hin).
  exists d. auto.
Qed.

(** C7. A [tools/call] request with non-empty params whose [name] is not,
    letter for letter, the name of a tool of the server is answered by a
    JSONRPCError with code -32602 (INVALID_PARAMS) whose message is
    "Unknown tool: " followed by that name. *)
Theorem unknown_tool_invalid_params (srv : server) (request : JSONRPCRequest)
    (context : LambdaContext) (w : W) (p : dict) (name : json) :
  method request = "tools/call" ->
  params request = Some p ->
  p <> [] ->
  name = dict_get p "name" JNull ->
  ~ registered srv name ->
  handle_request srv request context w
  = (Returned
       (JSONRPCError "2.0"
          (mkErrorData (-32602) ("Unknown tool: " ++ py_str name))
          (id request)),
     w).
Proof.
  intros Hm Hp Hne Hname Hn. apply handle_request_Returned.
  destruct request as [m p' i]. simpl in Hm, Hp. subst m p'.
  destruct p as [|kv p]; [congruence|].
  destruct srv; simpl;
    unfold GovUKAcronyms.handle_request_try, GovUKSearch.handle_request_try,
      Wikipedia.handle_request_try, params_value, bind;
    cbn [method params id py_bool negb py_get lift String.eqb Ascii.eqb
           Bool.eqb fst snd];
    rewrite <- Hname.
  - rewrite (not_registered_eq_str gov_uk_acronyms) by (simpl; auto).
    reflexivity.
  - rewrite (not_registered_eq_str gov_uk_search) by (simpl; auto).
    reflexivity.
  - rewrite !(not_registered_eq_str wikipedia) by (simpl; auto).
    reflexivity.
Qed.
(** C10. A [tools/call] request whose params are a non-empty mapping
    with no "name" key takes the unknown-tool branch: the answer is a
    JSONRPCError with code -32602 (INVALID_PARAMS) and the message
    "Unknown tool: None". *)
Theorem missing_name_unknown_tool_None (srv : server)
    (request : JSONRPCRequest) (context : LambdaContext) (w : W) (p : dict) :
  method request = "tools/call" ->
  params request = Some p ->
  p <> [] ->
  lookup p "name" = None ->
  handle_request srv request context w
  = (Returned
       (JSONRPCError "2.0" (mkErrorData (-32602) "Unknown tool: None")
          (id request)),
     w).
Proof.
  intros Hm Hp Hne Hname. apply handle_request_Returned.
  destruct request as [m p' i]. simpl in Hm, Hp. subst m p'.
  assert (Hn : dict_get p "name" JNull = JNull)
    by (unfold dict_get; rewrite Hname; reflexivity).
  destruct p as [|kv p]; [congruence|].
  destruct srv; simpl;
    unfold GovUKAcronyms.handle_request_try, GovUKSearch.handle_request_try,
      Wikipedia.handle_request_try, params_value, bind;
    cbn [method params id py_bool negb py_get lift String.eqb Ascii.eqb
           Bool.eqb fst snd];
    rewrite !Hn; reflexivity.
Qed.

(** The tools of a server, by name and required parameter. *)
Lemma tools_inv (srv : server) (descriptor : json) :
  In descriptor (tools srv) ->
  exists tool k,
    field descriptor "name" = JStr tool
    /\ required descriptor = [k]
    /\ In (srv, tool, k)
         [ (gov_uk_acronyms, "search_gov_uk_acronym", "acronym");
           (gov_uk_search, "search_gov_uk", "search_term");
           (wikipedia, "search_for_pages", "search_term");
           (wikipedia, "get_page_content", "page_title");
           (wikipedia, "summarise_page", "topic") ].
Proof.
  destruct srv; simpl; intros Hin;
    repeat (destruct Hin as [<- | Hin]; [do 2 eexists; repeat split; simpl; auto 6|]);
    destruct Hin.
Qed.

(** C8, as amended. A [tools/call] request that names a tool of the
    server, and whose [arguments] are absent (then an empty mapping) or a
    mapping, is answered by a JSONRPCError with code -32602
    (INVALID_PARAMS) whose message names the parameter, "<parameter>
    parameter is required", when the [arguments] lack a parameter that the
    tool's inputSchema declares required or hold an empty value for it.
    The condition on [arguments] is needed: [arguments] that are present
    and not a mapping are answered with the internal error instead. *)
Theorem missing_argument_invalid_params (srv : server)
    (request : JSONRPCRequest) (context : LambdaContext) (w : W)
    (p arguments : dict) (descriptor : json) (k : string) :
  method request = "tools/call" ->
  params request = Some p ->
  In descriptor (tools srv) ->
  lookup p "name" = Some (field descriptor "name") ->
  dict_get p "arguments" (JObj []) = JObj arguments ->
  In k (required descriptor) ->
  lookup arguments k = None
  \/ (exists v, lookup arguments k = Some v /\ py_bool v = false) ->
  handle_request srv request context w
  = (Returned
       (JSONRPCError "2.0"
          (mkErrorData (-32602) (k ++ " parameter is required"))
          (id request)),
     w).
Proof.
  intros Hm Hp Hd Hname Hargs Hk Hv. apply handle_request_Returned.
  destruct request as [m p' i]. simpl in Hm, Hp. subst m p'.
  assert (Hfalsy : py_bool (dict_get arguments k JNull) = false).
  { unfold dict_get. destruct Hv as [-> | (v & -> & Hv)]; auto. }
  destruct (tools_inv _ _ Hd) as (tool & k' & Ht & Hr & Hin).
  rewrite Hr in Hk. destruct Hk as [<- | []]. rewrite Ht in Hname.
  assert (Hn : dict_get p "name" JNull = JStr tool)
    by (unfold dict_get; rewrite Hname; reflexivity).
  destruct p as [|kv p]; [discriminate|].
  simpl in Hin.
  repeat (destruct Hin as [[= <- <- <-] | Hin]); try destruct Hin;
    simpl;
    unfold GovUKAcronyms.handle_request_try, GovUKSearch.handle_request_try,
      Wikipedia.handle_request_try, params_value, bind;
    cbn [method params id py_bool negb py_get lift String.eqb Ascii.eqb
           Bool.eqb fst snd];
    rewrite !Hn; cbn [eq_str negb String.eqb Ascii.eqb Bool.eqb];
    rewrite ?Hargs; cbn [py_get]; rewrite Hfalsy; reflexivity.
Qed.
(** C1. A [tools/call] request that passes validation (non-empty params,
    the name of a tool of the server, every required argument present and
    non-empty) is answered by a JSONRPCResponse whose result holds a
    [content] list of the one element [{type: "text", text: s}], a
    [structuredContent] of [{result: s}] and [isError] false, where [s]
    is the very string the adapter of that tool returned for the
    argument. *)
Theorem tools_call_success (srv : server) (request : JSONRPCRequest)
    (context : LambdaContext) (w : W) (p arguments : dict)
    (descriptor : json) :
  method request = "tools/call" ->
  params request = Some p ->
  In descriptor (tools srv) ->
  lookup p "name" = Some (field descriptor "name") ->
  dict_get p "arguments" (JObj []) = JObj arguments ->
  (forall k, In k (required descriptor) ->
             exists v, lookup arguments k = Some v /\ py_bool v = true) ->
  exists tool f k v s w',
    field descriptor "name" = JStr tool
    /\ adapter srv tool = Some f
    /\ required descriptor = [k]
    /\ lookup arguments k = Some v
    /\ f v w = (Returned s, w')
    /\ handle_request srv request context w
       = (Returned
            (JSONRPCResponse "2.0"
               [ ("content",
                  JArr [JObj [("type", JStr "text"); ("text", JStr s)]]);
                 ("structuredContent", JObj [("result", JStr s)]);
                 ("isError", JBool false) ]
               (id request)),
          w').
Proof.
  intros Hm Hp Hd Hname Hargs Hall.
  destruct request as [m p' i]. simpl in Hm, Hp. subst m p'.
  destruct (tools_inv _ _ Hd) as (tool & k & Ht & Hr & Hin).
  destruct (Hall k) as (v & Hv & Htruthy); [rewrite Hr; left; reflexivity|].
  rewrite Ht in Hname.
  assert (Hn : dict_get p "name" JNull = JStr tool)
    by (unfold dict_get; rewrite Hname; reflexivity).
  assert (Hval : dict_get arguments k JNull = v)
    by (unfold dict_get; rewrite Hv; reflexivity).
  destruct p as [|kv p]; [discriminate|].
  assert (Hrun : forall (f : json -> M W string) s w',
             adapter srv tool = Some f ->
             f v w = (Returned s, w') ->
             handle_request_try srv
               (mkRequest "tools/call" (Some (kv :: p)) i) context w
             = (Returned (JSONRPCResponse "2.0" (call_result s) i), w')).
  { intros f s w' Hf E. simpl in Hin.
    repeat (destruct Hin as [[= <- <- <-] | Hin]); try destruct Hin;
      simpl in Hf; injection Hf as <-;
      simpl;
      unfold GovUKAcronyms.handle_request_try, GovUKSearch.handle_request_try,
        Wikipedia.handle_request_try, params_value, bind;
      cbn [method params id py_bool negb py_get lift String.eqb Ascii.eqb
             Bool.eqb fst snd];
      rewrite !Hn; cbn [eq_str negb String.eqb Ascii.eqb Bool.eqb];
      rewrite ?Hargs; cbn [py_get]; rewrite Hval, Htruthy; cbn [negb];
      rewrite E; reflexivity. }
  assert (Hf : exists f, adapter srv tool = Some f /\ returns (f v)).
  { simpl in Hin.
    repeat (destruct Hin as [[= <- <- <-] | Hin]); try destruct Hin;
      eexists; (split; [reflexivity|]).
    - apply search_gov_uk_acronyms_returns.
    - apply search_gov_uk_returns.
    - apply search_for_pages_returns.
    - apply get_page_content_returns.
    - apply summarise_page_returns. }
  destruct Hf as (f & Hf & Hret). destruct (Hret w) as (s & w' & E).
  exists tool, f, k, v, s, w'. repeat split; auto.
  apply handle_request_Returned. apply (Hrun f s w' Hf E).
Qed.

(** ** Every request is answered *)

Lemma yields_ret {A : Type} (a : A) (P : A -> Prop) :
  P a -> yields (ret (W := W) a) P.
Proof. intros Ha w. exact Ha. Qed.

Lemma yields_bind {A B : Type} (c : M W A) (k : A -> M W B)
    (Q : A -> Prop) (P : B -> Prop) :
  yields c Q -> (forall a, Q a -> yields (k a) P) -> yields (bind c k) P.
Proof.
  intros Hc Hk w. unfold bind. specialize (Hc w).
  destruct (c w) as [[a|e] w1]; simpl in *.
  - apply (Hk a Hc).
  - exact I.
Qed.

Lemma yields_True {A : Type} (c : M W A) : yields c (fun _ => True).
Proof. intros w. destruct (fst (c w)); exact I. Qed.

Lemma answers_Response (request : JSONRPCRequest) (result : dict) :
  answers request (JSONRPCResponse "2.0" result (id request)).
Proof. left. eauto. Qed.

Lemma answers_Error (request : JSONRPCRequest) (error : ErrorData) :
  answers request (JSONRPCError "2.0" error (id request)).
Proof. right. eauto. Qed.

(** One step through a handler body: a [return], a statement that may
    raise, or a test. *)
Ltac yields_step :=
  match goal with
  | |- yields (ret (JSONRPCResponse _ _ _)) _ =>
      apply yields_ret; apply answers_Response
  | |- yields (ret (JSONRPCError _ _ _)) _ =>
      apply yields_ret; apply answers_Error
  | |- yields (ret (Wikipedia.Return _)) _ =>
      apply yields_ret; apply answers_Error
  | |- yields (ret (Wikipedia.Bound _)) _ =>
      apply yields_ret; exact I
  | |- yields (bind (lift _) _) _ =>
      apply (yields_bind _ _ _ _ (yields_True _)); intros ? _
  | |- yields (bind (_ _) _) (fun _ => match _ with _ => _ end) =>
      apply (yields_bind _ _ _ _ (yields_True _)); intros ? _
  | |- yields (if ?b then _ else _) _ => destruct b
  end.

(** Each [return] of a handler body answers the request. *)
Lemma handle_request_try_answers (srv : server) (request : JSONRPCRequest)
    (context : LambdaContext) :
  yields (handle_request_try srv request context) (answers request).
Proof.
  destruct srv; simpl;
    unfold GovUKAcronyms.handle_request_try, GovUKSearch.handle_request_try,
      Wikipedia.handle_request_try.
  - repeat yields_step.
    apply (yields_bind _ _ _ _ (yields_True _)); intros ? _.
    repeat yields_step.
  - repeat yields_step.
    apply (yields_bind _ _ _ _ (yields_True _)); intros ? _.
    repeat yields_step.
  - repeat yields_step.
    apply yields_bind
      with (Q := fun b => match b with
                          | Wikipedia.Return r => answers request r
                          | Wikipedia.Bound _ => True
                          end).
    + repeat yields_step.
    + intros [r | result] Hb; apply yields_ret;
        [exact Hb | apply answers_Response].
Qed.

(** C2. Every request, whatever its method, params and id, gets exactly
    one reply from [handle_request]: a JSONRPCResponse or a JSONRPCError
    (the two are different values), with [jsonrpc] "2.0" and the id of
    the request; [handle_request] never raises. *)
Theorem handle_request_one_reply (srv : server) (request : JSONRPCRequest)
    (context : LambdaContext) (w : W) :
  exists r w',
    handle_request srv request context w = (Returned r, w')
    /\ ((exists result, r = JSONRPCResponse "2.0" result (id request))
        \/ (exists error, r = JSONRPCError "2.0" error (id request)))
    /\ reply_jsonrpc r = "2.0"
    /\ reply_id r = id request
    /\ (forall r2 w2,
          handle_request srv request context w = (Returned r2, w2) ->
          r2 = r /\ w2 = w').
Proof.
  assert (Hex : exists r w',
             handle_request srv request context w = (Returned r, w')
             /\ answers request r).
  { rewrite handle_request_unfold.
    pose proof (handle_request_try_answers srv request context w) as Hy.
    destruct (handle_request_try srv request context w) as [[r|e] w1] eqn:E.
    - exists r, w1. split; [|exact Hy].
      apply try_except_Returned. exact E.
    - eexists _, w1. split.
      + unfold internal_error. rewrite (try_except_Raised _ _ _ _ _ E).
        reflexivity.
      + apply answers_Error. }
  destruct Hex as (r & w' & E & Ha). exists r, w'.
  split; [exact E|]. split; [exact Ha|].
  split; [destruct Ha as [(x & ->) | (x & ->)]; reflexivity|].
  split; [destruct Ha as [(x & ->) | (x & ->)]; reflexivity|].
  intros r2 w2 E2. rewrite E in E2. injection E2 as <- <-. auto.
Qed.
End Dispatcher.

(** ** The properties on concrete requests *)

(** The scenario of the specification: the acronym server asked for "nhs". *)
Example acronym_scenario :
  handle_request gov_uk_acronyms
    (Stub.call "search_gov_uk_acronym" [("acronym", JStr "nhs")])
    lambda_context ([] : Stub.world)
  = (Returned
       (JSONRPCResponse "2.0"
          [ ("content",
             JArr [JObj [("type", JStr "text");
                         ("text", JStr "NHS stands for National Health Service.")]]);
            ("structuredContent",
             JObj [("result", JStr "NHS stands for National Health Service.")]);
            ("isError", JBool false) ]
          (JInt 1)),
     ["https://acronyms.toolsforcivilservants.co.uk"]).
Proof. reflexivity. Qed.

(** [arguments] that are present but not a mapping make [arguments.get]
    raise; the answer is then the internal error of the outer [except]. *)
Example arguments_null :
  handle_request wikipedia
    (mkRequest "tools/call"
       (Some [("name", JStr "summarise_page"); ("arguments", JNull)]) (JInt 7))
    lambda_context ([] : Stub.world)
  = (Returned
       (JSONRPCError "2.0"
          (mkErrorData (-32603) "'NoneType' object has no attribute 'get'")
          (JInt 7)),
     []).
Proof. reflexivity. Qed.

Lemma tools_call_success_witness :
  exists tool f k v s w',
    field (hd JNull GovUKAcronyms.tools) "name" = JStr tool
    /\ adapter gov_uk_acronyms tool = Some f
    /\ required (hd JNull GovUKAcronyms.tools) = [k]
    /\ lookup [("acronym", JStr "nhs")] k = Some v
    /\ f v ([] : Stub.world) = (Returned s, w')
    /\ handle_request gov_uk_acronyms
         (Stub.call "search_gov_uk_acronym" [("acronym", JStr "nhs")])
         lambda_context []
       = (Returned
            (JSONRPCResponse "2.0"
               [ ("content",
                  JArr [JObj [("type", JStr "text"); ("text", JStr s)]]);
                 ("structuredContent", JObj [("result", JStr s)]);
                 ("isError", JBool false) ]
               (JInt 1)),
          w').
Proof.
  apply (tools_call_success gov_uk_acronyms
           (Stub.call "search_gov_uk_acronym" [("acronym", JStr "nhs")])
           lambda_context []
           [("name", JStr "search_gov_uk_acronym");
            ("arguments", JObj [("acronym", JStr "nhs")])]
           [("acronym", JStr "nhs")]
           (hd JNull GovUKAcronyms.tools)).
  - reflexivity.
  - reflexivity.
  - left. reflexivity.
  - reflexivity.
  - reflexivity.
  - intros k [<- | []]. exists (JStr "nhs"). split; reflexivity.
Defined.

Lemma adapters_total_witness :
  Wikipedia.summarise_page (JStr "Turing") ([] : Stub.world)
  = (Returned
       "Error getting results from wikipedia: Page id does not match any pages.",
     ["summary"]).
Proof.
  destruct (adapters_total (W := Stub.world) (JStr "Turing"))
    as (_ & _ & _ & _ & Hsummary).
  apply (proj2 (Hsummary [])
           (mkExn (LibraryError "PageError") "Page id does not match any pages.")).
  reflexivity.
Defined.

Lemma uncaught_exception_internal_error_witness :
  handle_request gov_uk_search
    (mkRequest "tools/call"
       (Some [("name", JStr "search_gov_uk"); ("arguments", JStr "vat")])
       (JStr "r-1"))
    lambda_context ([] : Stub.world)
  = (Returned
       (JSONRPCError "2.0"
          (mkErrorData (-32603) "'str' object has no attribute 'get'")
          (JStr "r-1")),
     []).
Proof.
  apply (uncaught_exception_internal_error gov_uk_search
           (mkRequest "tools/call"
              (Some [("name", JStr "search_gov_uk"); ("arguments", JStr "vat")])
              (JStr "r-1"))
           lambda_context [] [] (no_attribute (JStr "vat") "get")).
  reflexivity.
Defined.

Lemma unknown_method_not_found_witness :
  handle_request wikipedia (mkRequest "bogus" None (JInt 3)) lambda_context
    ([] : Stub.world)
  = (Returned
       (JSONRPCError "2.0" (mkErrorData (-32601) "Method not found: bogus")
          (JInt 3)),
     []).
Proof.
  apply (unknown_method_not_found wikipedia (mkRequest "bogus" None (JInt 3))
           lambda_context []); simpl; discriminate.
Defined.

Lemma tools_call_missing_params_witness :
  handle_request gov_uk_acronyms (mkRequest "tools/call" (Some []) JNull)
    lambda_context ([] : Stub.world)
  = (Returned
       (JSONRPCError "2.0" (mkErrorData (-32602) "Missing parameters") JNull),
     []).
Proof.
  apply (tools_call_missing_params gov_uk_acronyms
           (mkRequest "tools/call" (Some []) JNull) lambda_context []).
  - reflexivity.
  - right. reflexivity.
Defined.

Lemma unknown_tool_invalid_params_witness :
  handle_request wikipedia
    (mkRequest "tools/call" (Some [("name", JStr "Summarise_Page")]) (JInt 4))
    lambda_context ([] : Stub.world)
  = (Returned
       (JSONRPCError "2.0"
          (mkErrorData (-32602) "Unknown tool: Summarise_Page") (JInt 4)),
     []).
Proof.
  apply (unknown_tool_invalid_params wikipedia
           (mkRequest "tools/call" (Some [("name", JStr "Summarise_Page")]) (JInt 4))
           lambda_context [] [("name", JStr "Summarise_Page")]
           (JStr "Summarise_Page")).
  - reflexivity.
  - reflexivity.
  - discriminate.
  - reflexivity.
  - intros (d & Hin & Hd). simpl in Hin.
    destruct Hin as [<- | [<- | [<- | []]]]; discriminate Hd.
Defined.

Lemma missing_argument_invalid_params_witness :
  handle_request wikipedia
    (mkRequest "tools/call" (Some [("name", JStr "get_page_content")]) (JInt 5))
    lambda_context ([] : Stub.world)
  = (Returned
       (JSONRPCError "2.0"
          (mkErrorData (-32602) "page_title parameter is required") (JInt 5)),
     []).
Proof.
  apply (missing_argument_invalid_params wikipedia
           (mkRequest "tools/call" (Some [("name", JStr "get_page_content")]) (JInt 5))
           lambda_context [] [("name", JStr "get_page_content")] []
           (nth 1 Wikipedia.tools JNull) "page_title").
  - reflexivity.
  - reflexivity.
  - right. left. reflexivity.
  - reflexivity.
  - reflexivity.
  - left. reflexivity.
  - left. reflexivity.
Defined.

Lemma missing_name_unknown_tool_None_witness :
  handle_request gov_uk_search
    (mkRequest "tools/call" (Some [("arguments", JObj [("search_term", JStr "vat")])])
       (JInt 6))
    lambda_context ([] : Stub.world)
  = (Returned
       (JSONRPCError "2.0" (mkErrorData (-32602) "Unknown tool: None") (JInt 6)),
     []).
Proof.
  apply (missing_name_unknown_tool_None gov_uk_search
           (mkRequest "tools/call"
              (Some [("arguments", JObj [("search_term", JStr "vat")])]) (JInt 6))
           lambda_context []
           [("arguments", JObj [("search_term", JStr "vat")])]).
  - reflexivity.
  - reflexivity.
  - discriminate.
  - reflexivity.
Defined.

(** * Further properties of the adapters and the dispatcher *)

(** ** The glossary table of [search_gov_uk_acronyms] *)

Section AcronymTable.
Context {W : Type} `{Library W}.
Import GovUKAcronyms.

Lemma table_find_set_same (data : table) (k : string) (r : row) :
  table_find (table_set data k r) k = Some r.
Proof.
  induction data as [|[k0 r0] data IH]; simpl.
  - rewrite String.eqb_refl. reflexivity.
  - destruct (String.eqb k0 k) eqn:E; simpl; rewrite E; auto.
Qed.

Lemma table_find_set_other (data : table) (k k' : string) (r : row) :
  k <> k' -> table_find (table_set data k r) k' = table_find data k'.
Proof.
  intros Hne. induction data as [|[k0 r0] data IH]; simpl.
  - apply String.eqb_neq in Hne. rewrite Hne. reflexivity.
  - destruct (String.eqb_spec k0 k) as [->|E]; simpl.
    + apply String.eqb_neq in Hne. rewrite Hne. reflexivity.
    + rewrite IH. reflexivity.
Qed.

Lemma list_getitem_nth {A : Type} (l : list A) (i : nat) (d : A) :
  i < length l -> list_getitem l i = Returned (nth i l d).
Proof.
  intros Hi. unfold list_getitem. rewrite (nth_error_nth' l d Hi). reflexivity.
Qed.

(** What one turn of the loop does to [data]. *)
Lemma add_row_eq (info : list string) (data : table) (index : nat)
    (acro : string) :
  add_row info data index acro
  = Returned (if complete info index
              then table_set data (str_upper acro) (row_at info index acro)
              else data).
Proof.
  unfold add_row, complete.
  destruct (Nat.ltb_spec (index * ITEMS_PER_ROW + 3) (length info)) as [Hlt|Hge];
    [|reflexivity].
  rewrite (list_getitem_nth info (index * ITEMS_PER_ROW) "") by lia.
  rewrite (list_getitem_nth info (index * ITEMS_PER_ROW + 1) "") by lia.
  rewrite (list_getitem_nth info (index * ITEMS_PER_ROW + 2) "") by lia.
  rewrite (list_getitem_nth info (index * ITEMS_PER_ROW + 3) "") by lia.
  reflexivity.
Qed.

Lemma build_table_returns (info : list string) (data : table) (index : nat)
    (acronyms : list string) :
  exists t, build_table info data index acronyms = Returned t.
Proof.
  revert data index. induction acronyms as [|acro rest IH]; intros data index.
  - simpl. eauto.
  - simpl. rewrite add_row_eq. simpl. apply IH.
Qed.

(** X1. The loop that builds the glossary table never raises: the test
    [index * ITEMS_PER_ROW + 3 < len(info)] keeps every [info[...]] in
    range, so no turn of the loop raises [IndexError] (the [except] clause
    is never taken) and the loop ends with a table. *)
Theorem build_table_never_raises (info : list string) (data : table)
    (index : nat) (acronyms : list string) :
  (forall acro, exists data', add_row info data index acro = Returned data')
  /\ exists t, build_table info data index acronyms = Returned t.
Proof.
  split.
  - intros acro. rewrite add_row_eq. eauto.
  - apply build_table_returns.
Qed.

Lemma build_table_last_row (info : list string) (data : table) (index : nat)
    (acronyms : list string) :
  exists t,
    build_table info data index acronyms = Returned t
    /\ forall k,
         table_find t k
         = match last_row info index acronyms k with
           | Some r => Some r
           | None => table_find data k
           end.
Proof.
  revert data index. induction acronyms as [|acro rest IH]; intros data index.
  - simpl. eauto.
  - simpl. rewrite add_row_eq. simpl.
    destruct (IH (if complete info index
                  then table_set data (str_upper acro) (row_at info index acro)
                  else data) (S index)) as (t & Ht & Hfind).
    exists t. split; [exact Ht|]. intros k. rewrite Hfind.
    destruct (last_row info (S index) rest k); [reflexivity|].
    destruct (complete info index); simpl; [|reflexivity].
    destruct (String.eqb_spec (str_upper acro) k) as [<-|Hne].
    + apply table_find_set_same.
    + apply table_find_set_other. exact Hne.
Qed.

(** X2. What the table holds after the loop: under a key [k] it holds the
    last complete row whose upper-cased acronym is [k] (a later row with
    the same key replaces an earlier one, a row without its four cells is
    skipped), and otherwise what was there before. *)
Theorem build_table_find (info : list string) (data : table) (index : nat)
    (acronyms : list string) :
  exists t,
    build_table info data index acronyms = Returned t
    /\ forall k,
         table_find t k
         = match last_row info index acronyms k with
           | Some r => Some r
           | None => table_find data k
           end.
Proof. apply build_table_last_row. Qed.

Lemma table_set_keys (data : table) (k k' : string) (r : row) :
  In k' (map fst (table_set data k r)) <-> k' = k \/ In k' (map fst data).
Proof.
  induction data as [|[k0 r0] data IH]; simpl.
  - intuition congruence.
  - destruct (String.eqb_spec k0 k) as [->|Hne]; simpl.
    + intuition congruence.
    + rewrite IH. intuition congruence.
Qed.

Lemma table_set_NoDup (data : table) (k : string) (r : row) :
  NoDup (map fst data) -> NoDup (map fst (table_set data k r)).
Proof.
  induction data as [|[k0 r0] data IH]; simpl; intros Hnd.
  - constructor; [intros []|constructor].
  - inversion Hnd as [|? ? Hnotin Hnd']; subst.
    destruct (String.eqb_spec k0 k) as [->|Hne]; simpl.
    + constructor; assumption.
    + constructor; [|apply IH; assumption].
      rewrite table_set_keys. intuition congruence.
Qed.

Lemma build_table_NoDup (info : list string) (data : table) (index : nat)
    (acronyms : list string) (t : table) :
  build_table info data index acronyms = Returned t ->
  NoDup (map fst data) -> NoDup (map fst t).
Proof.
  revert data index. induction acronyms as [|acro rest IH]; intros data index.
  - simpl. intros [= <-]. auto.
  - simpl. rewrite add_row_eq. simpl. intros Ht Hnd.
    apply (IH _ _ Ht). destruct (complete info index); [|exact Hnd].
    apply table_set_NoDup. exact Hnd.
Qed.

(** X3. The keys of the table are distinct, as those of the [dict] it
    stands for: the table built from an empty [data] never holds the same
    upper-cased acronym twice. *)
Theorem build_table_keys_distinct (info acronyms : list string) :
  exists t,
    build_table info [] 0 acronyms = Returned t /\ NoDup (map fst t).
Proof.
  destruct (build_table_returns info [] 0 acronyms) as (t & Ht).
  exists t. split; [exact Ht|].
  apply (build_table_NoDup _ _ _ _ _ Ht). constructor.
Qed.

End AcronymTable.

(** ** The answers of [search_gov_uk_acronyms] *)

Lemma append_assoc (a b c : string) : (a ++ b) ++ c = a ++ (b ++ c).
Proof. induction a as [|x a IH]; simpl; [|rewrite IH]; reflexivity. Qed.

Lemma append_empty_r (a : string) : a ++ "" = a.
Proof. induction a as [|x a IH]; simpl; [|rewrite IH]; reflexivity. Qed.

Section AcronymAnswer.
Context {W : Type} `{Library W}.
Import GovUKAcronyms.

Lemma firstn_In {A : Type} (n : nat) (l : list A) (x : A) :
  In x (firstn n l) -> In x l.
Proof.
  intros Hin. rewrite <- (firstn_skipn n l). apply in_or_app. left. exact Hin.
Qed.

Lemma table_find_In (data : table) (k : string) :
  In k (map fst data) -> exists r, table_find data k = Some r.
Proof.
  induction data as [|[k0 r0] data IH]; simpl; [intros []|].
  intros [-> | Hin].
  - rewrite String.eqb_refl. eauto.
  - destruct (String.eqb k0 k); eauto.
Qed.

(** The loop over the similar keys, for keys of the table. *)
Lemma similar_lines_eq (data : table) (keys : list string) :
  (forall k, In k keys -> In k (map fst data)) ->
  similar_lines data keys = Returned (map (similar_line data) keys).
Proof.
  induction keys as [|k keys IH]; intros Hin; simpl; [reflexivity|].
  destruct (table_find_In data k) as (r & Hr); [apply Hin; left; reflexivity|].
  unfold table_getitem, similar_line. rewrite Hr. simpl.
  rewrite IH by (intros k' Hk'; apply Hin; right; exact Hk'). reflexivity.
Qed.

(** X4. The "similar acronyms" loop never raises [KeyError] and lists at
    most three acronyms: whatever the table and the filter, the loop over
    [partial_matches[:3]] yields one line per match, three at the most. *)
Theorem similar_lines_at_most_three (data : table) (f : string -> bool) :
  exists lines,
    similar_lines data (firstn 3 (filter f (map fst data))) = Returned lines
    /\ length lines = Nat.min 3 (length (filter f (map fst data)))
    /\ length lines <= 3.
Proof.
  exists (map (similar_line data) (firstn 3 (filter f (map fst data)))).
  split; [|split].
  - apply similar_lines_eq. intros k Hk.
    apply firstn_In in Hk. apply filter_In in Hk. tauto.
  - rewrite length_map, length_firstn. reflexivity.
  - rewrite length_map, length_firstn. lia.
Qed.

(** [" ".join(response_parts)] written as one concatenation. *)
Lemma exact_answer_join (r : row) :
  (let response_parts :=
     [row_acronym r ++ " stands for " ++ row_meaning r ++ "."] in
   let response_parts :=
     if nonempty (row_definition r)
     then app response_parts ["Definition: " ++ row_definition r]
     else response_parts in
   let response_parts :=
     if nonempty (row_department r)
     then app response_parts ["Department: " ++ row_department r]
     else response_parts in
   let response_parts :=
     if nonempty (row_team r)
     then app response_parts ["Team: " ++ row_team r]
     else response_parts in
   join " " response_parts)
  = exact_answer r.
Proof.
  unfold exact_answer, opt_part, join.
  destruct (row_definition r), (row_department r), (row_team r);
    cbn [nonempty app String.concat];
    rewrite ?append_assoc; cbn [append]; rewrite ?append_empty_r;
    reflexivity.
Qed.

(** The adapter once the page is fetched. *)
Lemma search_gov_uk_acronyms_fetched (acronym : json) (w w1 : W)
    (response : Response) :
  glossary_request w = (Returned response, w1) ->
  raise_for_status response = Returned tt ->
  exists data,
    build_table (glossary_cells response) [] 0 (glossary_headers response)
    = Returned data
    /\ search_gov_uk_acronyms acronym w
       = (Returned (glossary_answer data acronym), w1).
Proof.
  intros Hget Hstatus.
  destruct (build_table_returns (glossary_cells response) [] 0
              (glossary_headers response)) as (data & Hdata).
  exists data. split; [exact Hdata|].
  unfold glossary_request in Hget.
  unfold search_gov_uk_acronyms, try_except, bind, lift.
  rewrite Hget, Hstatus.
  unfold glossary_cells, glossary_headers in Hdata. rewrite Hdata.
  destruct acronym; try reflexivity.
  cbn [py_upper glossary_answer py_str].
  unfold table_mem.
  destruct (table_find data (str_upper s)) as [r|] eqn:Hr; cbn [negb].
  - unfold table_getitem. rewrite Hr. unfold ret.
    rewrite <- exact_answer_join. reflexivity.
  - unfold similar.
    destruct (filter _ (map fst data)) as [|k keys] eqn:Hf; [reflexivity|].
    rewrite similar_lines_eq.
    + reflexivity.
    + intros k' Hk'. apply firstn_In in Hk'. rewrite <- Hf in Hk'.
      apply filter_In in Hk'. tauto.
Qed.

End AcronymAnswer.

Section AcronymCases.
Context {W : Type} `{Library W}.
Import GovUKAcronyms.

(** X5. Once the glossary page is fetched with a good status, the answer of
    [search_gov_uk_acronyms] is a function of the table built from the page
    and of the argument: the exact entry, up to three similar acronyms, "No
    definition found", or the text of the [AttributeError] for an argument
    that is not a string.  Nothing else is fetched. *)
Theorem search_gov_uk_acronyms_answer (acronym : json) (w w1 : W)
    (response : Response) :
  glossary_request w = (Returned response, w1) ->
  raise_for_status response = Returned tt ->
  exists data,
    build_table (glossary_cells response) [] 0 (glossary_headers response)
    = Returned data
    /\ search_gov_uk_acronyms acronym w
       = (Returned (glossary_answer data acronym), w1).
Proof. apply search_gov_uk_acronyms_fetched. Qed.

(** X6. An argument that is not a string (a number, a list, ...) is not
    rejected before the lookup: the page is fetched, and the answer is the
    text "Error processing acronym lookup: '<type>' object has no attribute
    'upper'". *)
Theorem search_gov_uk_acronyms_not_a_string (acronym : json) (w w1 : W)
    (response : Response) :
  glossary_request w = (Returned response, w1) ->
  raise_for_status response = Returned tt ->
  (forall a, acronym <> JStr a) ->
  search_gov_uk_acronyms acronym w
  = (Returned
       ("Error processing acronym lookup: '" ++ type_name acronym
          ++ "' object has no attribute 'upper'"),
     w1).
Proof.
  intros Hget Hstatus Hns.
  destruct (search_gov_uk_acronyms_fetched acronym w w1 response Hget Hstatus)
    as (data & _ & ->).
  destruct acronym; try reflexivity. destruct (Hns s). reflexivity.
Qed.

(** X7. The lookup is case-insensitive and the last row wins: when the last
    complete row of the page whose acronym upper-cases to [a.upper()] is
    [r], every argument with the same upper-casing gets the answer built
    from [r]: "<acronym> stands for <meaning>." followed by the definition,
    department and team that are not empty. *)
Theorem search_gov_uk_acronyms_exact (a b : string) (w w1 : W)
    (response : Response) (r : row) :
  glossary_request w = (Returned response, w1) ->
  raise_for_status response = Returned tt ->
  last_row (glossary_cells response) 0 (glossary_headers response) (str_upper a)
  = Some r ->
  str_upper b = str_upper a ->
  search_gov_uk_acronyms (JStr b) w = (Returned (exact_answer r), w1).
Proof.
  intros Hget Hstatus Hrow Hab.
  destruct (search_gov_uk_acronyms_fetched (JStr b) w w1 response Hget Hstatus)
    as (data & Hdata & ->).
  destruct (build_table_last_row (glossary_cells response) [] 0
              (glossary_headers response)) as (t & Ht & Hfind).
  rewrite Hdata in Ht. injection Ht as <-.
  unfold glossary_answer. rewrite Hab, Hfind, Hrow. reflexivity.
Qed.

Lemma build_table_incomplete (info : list string) (data : table) (index : nat)
    (acronyms : list string) :
  length info < 4 -> build_table info data index acronyms = Returned data.
Proof.
  intros Hlen. revert data index.
  induction acronyms as [|acro rest IH]; intros data index; simpl.
  - reflexivity.
  - rewrite add_row_eq. unfold complete.
    destruct (Nat.ltb_spec (index * ITEMS_PER_ROW + 3) (length info)) as [Hlt|_];
      [lia|].
    simpl. apply IH.
Qed.

(** X8. A page without a table row (no header, or fewer than four cells)
    gives an empty table, and then every string gets the answer "No
    definition found for acronym '<acronym>'. ..." *)
Theorem search_gov_uk_acronyms_empty_page (a : string) (w w1 : W)
    (response : Response) :
  glossary_request w = (Returned response, w1) ->
  raise_for_status response = Returned tt ->
  glossary_headers response = [] \/ length (glossary_cells response) < 4 ->
  search_gov_uk_acronyms (JStr a) w
  = (Returned
       ("No definition found for acronym '" ++ a
          ++ "'. The acronym may not be in the UK government database."),
     w1).
Proof.
  intros Hget Hstatus Hempty.
  destruct (search_gov_uk_acronyms_fetched (JStr a) w w1 response Hget Hstatus)
    as (data & Hdata & ->).
  assert (Hnil : data = []).
  { destruct Hempty as [Hh | Hc].
    - rewrite Hh in Hdata. simpl in Hdata. congruence.
    - rewrite (build_table_incomplete _ _ _ _ Hc) in Hdata. congruence. }
  subst data. reflexivity.
Qed.

End AcronymCases.

(** The page [Canned.glossary] answers with, and the world after it. *)
Example glossary_page :
  glossary_request (H := Canned.glossary) []
  = (Returned
       (mkResponse (Returned tt)
          "<html>https://acronyms.toolsforcivilservants.co.uk" (Returned JNull)),
     ["https://acronyms.toolsforcivilservants.co.uk"]).
Proof. reflexivity. Qed.

Lemma search_gov_uk_acronyms_answer_witness :
  exists data,
    GovUKAcronyms.build_table (H := Canned.glossary)
      ["National Health Service"; ""; ""; "";
       "National Health Service (England)"; "Health care"; "DHSC"; "";
       "Department for Education"; "Schools"]
      [] 0 ["NHS"; "Nhs"; "DfE"]
    = Returned data
    /\ GovUKAcronyms.search_gov_uk_acronyms (H := Canned.glossary)
         (JStr "nh") []
       = (Returned (glossary_answer (H := Canned.glossary) data (JStr "nh")),
          ["https://acronyms.toolsforcivilservants.co.uk"]).
Proof.
  apply (search_gov_uk_acronyms_answer (H := Canned.glossary) (JStr "nh") []
           ["https://acronyms.toolsforcivilservants.co.uk"]
           (mkResponse (Returned tt)
              "<html>https://acronyms.toolsforcivilservants.co.uk"
              (Returned JNull))).
  - reflexivity.
  - reflexivity.
Defined.

(** The same request, run: the third row of the page is cut short and is
    not in the table, the second row took the place of the first. *)
Example similar_acronyms_run :
  GovUKAcronyms.search_gov_uk_acronyms (H := Canned.glossary) (JStr "nh") []
  = (Returned
       ("No exact match found for 'nh'. Similar acronyms:" ++ LF
          ++ "Nhs: National Health Service (England)"),
     ["https://acronyms.toolsforcivilservants.co.uk"]).
Proof. reflexivity. Qed.

Lemma search_gov_uk_acronyms_not_a_string_witness :
  GovUKAcronyms.search_gov_uk_acronyms (H := Canned.glossary) (JInt 5) []
  = (Returned
       "Error processing acronym lookup: 'int' object has no attribute 'upper'",
     ["https://acronyms.toolsforcivilservants.co.uk"]).
Proof.
  apply (search_gov_uk_acronyms_not_a_string (H := Canned.glossary) (JInt 5) []
           ["https://acronyms.toolsforcivilservants.co.uk"]
           (mkResponse (Returned tt)
              "<html>https://acronyms.toolsforcivilservants.co.uk"
              (Returned JNull))).
  - reflexivity.
  - reflexivity.
  - intros a. discriminate.
Defined.

Lemma search_gov_uk_acronyms_exact_witness :
  GovUKAcronyms.search_gov_uk_acronyms (H := Canned.glossary) (JStr "nhs") []
  = (Returned
       "Nhs stands for National Health Service (England). Definition: Health care Department: DHSC",
     ["https://acronyms.toolsforcivilservants.co.uk"]).
Proof.
  apply (search_gov_uk_acronyms_exact (H := Canned.glossary) "NHS" "nhs" []
           ["https://acronyms.toolsforcivilservants.co.uk"]
           (mkResponse (Returned tt)
              "<html>https://acronyms.toolsforcivilservants.co.uk"
              (Returned JNull))
           (GovUKAcronyms.mkRow "Nhs" "National Health Service (England)"
              "Health care" "DHSC" "")).
  - reflexivity.
  - reflexivity.
  - reflexivity.
  - reflexivity.
Defined.

Lemma search_gov_uk_acronyms_empty_page_witness :
  GovUKAcronyms.search_gov_uk_acronyms (H := Canned.blank) (JStr "nhs") []
  = (Returned
       "No definition found for acronym 'nhs'. The acronym may not be in the UK government database.",
     ["https://acronyms.toolsforcivilservants.co.uk"]).
Proof.
  apply (search_gov_uk_acronyms_empty_page (H := Canned.blank) "nhs" []
           ["https://acronyms.toolsforcivilservants.co.uk"]
           (mkResponse (Returned tt)
              "<html>https://acronyms.toolsforcivilservants.co.uk"
              (Returned JNull))).
  - reflexivity.
  - reflexivity.
  - left. reflexivity.
Defined.

(** ** [scrape_url] and the loops of [search_gov_uk] *)

Lemma prefix_append (p s : string) : String.prefix p (p ++ s) = true.
Proof.
  induction p as [|a p IH]; simpl.
  - destruct s; reflexivity.
  - destruct (ascii_dec a a) as [_|Hne]; [exact IH | destruct Hne; reflexivity].
Qed.

Section SearchLoops.
Context {W : Type} `{Library W}.
Import GovUKSearch.

(** X9. [scrape_url] never raises, whatever the URL and the network do: a
    request that fails, or a page with an error status, is answered with
    the text "Error scraping page: <message>", and a good page with the
    content [extract_body_content] finds in it. *)
Theorem scrape_url_answer (url : string) (w : W) :
  (exists s w', scrape_url url w = (Returned s, w'))
  /\ (forall e w',
        requests_get url [] [] 10 w = (Raised e, w') ->
        scrape_url url w = (Returned ("Error scraping page: " ++ exn_str e), w'))
  /\ (forall response w',
        requests_get url [] [] 10 w = (Returned response, w') ->
        scrape_url url w = (Returned (scraped response), w')).
Proof.
  split; [apply scrape_url_returns|]. split.
  - intros e w' E. unfold scrape_url, try_except, bind. rewrite E. simpl.
    rewrite issubclass_Exception. reflexivity.
  - intros response w' E. unfold scrape_url, try_except, bind, lift, scraped.
    rewrite E. destruct (raise_for_status response) as [[]|e]; simpl.
    + reflexivity.
    + rewrite issubclass_Exception. reflexivity.
Qed.

Lemma collect_urls_links (results : list json) (links : list string)
    (urls_to_scrape : list string) :
  Forall2 link_of results links ->
  collect_urls results urls_to_scrape
  = Returned (urls_to_scrape ++ map gov_uk_url (filter keep_link links))%list.
Proof.
  intros Hl. revert urls_to_scrape.
  induction Hl as [|result link results links (d & -> & Hd) _ IH];
    intros urls_to_scrape; simpl.
  - rewrite app_nil_r. reflexivity.
  - cbn [py_get]. rewrite Hd. cbn [obind filter]. unfold keep_link.
    destruct link as [|a link];
      cbn [py_bool py_startswith obind GovUKAcronyms.nonempty andb negb].
    + apply IH.
    + destruct (String.prefix "https://" (String a link));
        cbn [negb obind map py_str].
      * apply IH.
      * rewrite IH, <- app_assoc. reflexivity.
Qed.

(** X10. For results that are objects with a string (or no) link, the loop
    over the results keeps, in order, the links that are not empty and do
    not start with "https://", each one prefixed with "https://www.gov.uk";
    results without a link and absolute links are skipped. *)
Theorem collect_urls_filter (results : list json) (links : list string) :
  Forall2 link_of results links ->
  collect_urls results []
  = Returned (map gov_uk_url (filter keep_link links)).
Proof. intros Hl. apply (collect_urls_links results links [] Hl). Qed.

Lemma collect_urls_gov_uk (results : list json) (acc urls : list string) :
  collect_urls results acc = Returned urls ->
  Forall (fun u => String.prefix "https://www.gov.uk" u = true) acc ->
  Forall (fun u => String.prefix "https://www.gov.uk" u = true) urls
  /\ length urls <= length acc + length results.
Proof.
  revert acc.
  induction results as [|result results IH]; intros acc;
    cbn [collect_urls length].
  - intros [= <-] Hacc. split; [exact Hacc | lia].
  - destruct (py_get result "link" (JStr "")) as [link|e]; cbn [obind];
      [|discriminate].
    destruct (py_bool link); cbn [obind].
    + destruct (py_startswith link "https://") as [b|e]; cbn [obind];
        [|discriminate].
      destruct b; cbn [negb]; intros Hc Hacc.
      * destruct (IH _ Hc Hacc). split; [assumption | lia].
      * destruct (IH _ Hc) as [Hu Hlen].
        { apply Forall_app. split; [exact Hacc|].
          constructor; [apply prefix_append | constructor]. }
        split; [exact Hu|]. rewrite length_app in Hlen.
        cbn [length] in Hlen. lia.
    + intros Hc Hacc. destruct (IH _ Hc Hacc). split; [assumption | lia].
Qed.

(** X11. Whatever the search results are, every address the loop hands to
    the scraper starts with "https://www.gov.uk", and there is at most one
    address per result. *)
Theorem collect_urls_on_gov_uk (results : list json) (urls : list string) :
  collect_urls results [] = Returned urls ->
  Forall (fun u => String.prefix "https://www.gov.uk" u = true) urls
  /\ length urls <= length results.
Proof.
  intros Hc. apply (collect_urls_gov_uk results [] urls Hc). constructor.
Qed.


Lemma scrape_url_text (url : string) (w : W) :
  scrape_url url w
  = (Returned (fst (scrape_text url w)), snd (scrape_text url w)).
Proof.
  unfold scrape_url, scrape_text, try_except, bind, lift, scraped.
  destruct (requests_get url [] [] 10 w) as [[response|e] w1]; simpl.
  - destruct (raise_for_status response) as [[]|e]; simpl.
    + reflexivity.
    + rewrite issubclass_Exception. reflexivity.
  - rewrite issubclass_Exception. reflexivity.
Qed.

Lemma scrape_each_texts (urls scraped_data : list string) (w : W) :
  scrape_each urls scraped_data w
  = (Returned (scraped_data ++ fst (scrape_texts urls w))%list,
     snd (scrape_texts urls w)).
Proof.
  revert scraped_data w.
  induction urls as [|url urls IH]; intros scraped_data w.
  - simpl. rewrite app_nil_r. reflexivity.
  - cbn [scrape_each scrape_texts]. unfold bind.
    rewrite scrape_url_text.
    destruct (scrape_text url w) as [page w1]. cbn [fst snd].
    rewrite IH. destruct (scrape_texts urls w1) as [pages w2]. cbn [fst snd].
    rewrite <- app_assoc. reflexivity.
Qed.

Lemma scrape_texts_length (urls : list string) (w : W) :
  length (fst (scrape_texts urls w)) = length urls.
Proof.
  revert w. induction urls as [|url urls IH]; intros w; [reflexivity|].
  cbn [scrape_texts]. destruct (scrape_text url w) as [page w1].
  specialize (IH w1). destruct (scrape_texts urls w1) as [pages w2].
  simpl in *. rewrite IH. reflexivity.
Qed.

(** X12. The scraping loop never raises and records one text per address,
    in order, each request made in the world the one before left: the text
    of an address is the content of its page, or, when the request raises
    or the status is bad, the error text "Error scraping page: <message>";
    a page that cannot be scraped does not stop the loop. *)
Theorem scrape_each_one_per_url (urls : list string) (w : W) :
  scrape_each urls [] w
  = (Returned (fst (scrape_texts urls w)), snd (scrape_texts urls w))
  /\ length (fst (scrape_texts urls w)) = length urls.
Proof.
  split.
  - apply (scrape_each_texts urls [] w).
  - apply scrape_texts_length.
Qed.

End SearchLoops.

(** ** The answers of [search_gov_uk] *)

Section SearchAnswers.
Context {W : Type} `{Library W}.
Import GovUKSearch.

(** X13. A search whose JSON body has no "results", or has them empty or
    null, is answered "No results found for search term: <term>"; no page
    is scraped. *)
Theorem search_gov_uk_no_results (search_term : json) (w w1 : W)
    (response : Response) (d : dict) :
  search_request search_term w = (Returned response, w1) ->
  raise_for_status response = Returned tt ->
  json_body response = Returned (JObj d) ->
  py_bool (dict_get d "results" JNull) = false ->
  search_gov_uk search_term w
  = (Returned ("No results found for search term: " ++ py_str search_term), w1).
Proof.
  intros Hget Hstatus Hbody Hres. unfold search_request in Hget.
  unfold search_gov_uk, try_except, bind, lift.
  rewrite Hget, Hstatus, Hbody. cbn [py_get]. rewrite Hres. reflexivity.
Qed.

(** X14. A search whose JSON body is not an object (a list, a string, null)
    is answered with the text of the [AttributeError]: "Error processing
    search results: '<type>' object has no attribute 'get'". *)
Theorem search_gov_uk_body_not_an_object (search_term : json) (w w1 : W)
    (response : Response) (body : json) :
  search_request search_term w = (Returned response, w1) ->
  raise_for_status response = Returned tt ->
  json_body response = Returned body ->
  (forall d, body <> JObj d) ->
  search_gov_uk search_term w
  = (Returned
       ("Error processing search results: '" ++ type_name body
          ++ "' object has no attribute 'get'"),
     w1).
Proof.
  intros Hget Hstatus Hbody Hno. unfold search_request in Hget.
  unfold search_gov_uk, try_except, bind, lift.
  rewrite Hget, Hstatus, Hbody.
  destruct body; try reflexivity. destruct (Hno d). reflexivity.
Qed.


End SearchAnswers.

Lemma collect_urls_filter_witness :
  GovUKSearch.collect_urls
    [ JObj [("link", JStr "/vat")];
      JObj [("title", JStr "No link")];
      JObj [("link", JStr "https://www.example.org/vat")];
      JObj [("link", JStr "/income-tax")] ]
    []
  = Returned ["https://www.gov.uk/vat"; "https://www.gov.uk/income-tax"].
Proof.
  apply (collect_urls_filter
           [ JObj [("link", JStr "/vat")];
             JObj [("title", JStr "No link")];
             JObj [("link", JStr "https://www.example.org/vat")];
             JObj [("link", JStr "/income-tax")] ]
           ["/vat"; ""; "https://www.example.org/vat"; "/income-tax"]).
  repeat constructor; eexists; split; reflexivity.
Defined.

Lemma collect_urls_on_gov_uk_witness :
  Forall (fun u => String.prefix "https://www.gov.uk" u = true)
    ["https://www.gov.ukhttp://www.example.org"]
  /\ length ["https://www.gov.ukhttp://www.example.org"] <= 2.
Proof.
  apply (collect_urls_on_gov_uk
           [JObj [("link", JStr "http://www.example.org")]; JObj [("link", JNull)]]
           ["https://www.gov.ukhttp://www.example.org"]).
  reflexivity.
Defined.

Lemma search_gov_uk_no_results_witness :
  GovUKSearch.search_gov_uk (H := Canned.search (JObj [("results", JArr [])]))
    (JStr "vat") []
  = (Returned "No results found for search term: vat",
     ["https://www.gov.uk/api/search.json"]).
Proof.
  apply (search_gov_uk_no_results (H := Canned.search (JObj [("results", JArr [])]))
           (JStr "vat") [] ["https://www.gov.uk/api/search.json"]
           (mkResponse (Returned tt) "<html>https://www.gov.uk/api/search.json"
              (Returned (JObj [("results", JArr [])])))
           [("results", JArr [])]).
  - reflexivity.
  - reflexivity.
  - reflexivity.
  - reflexivity.
Defined.

Lemma search_gov_uk_body_not_an_object_witness :
  GovUKSearch.search_gov_uk (H := Canned.search (JArr [JStr "/vat"]))
    (JStr "vat") []
  = (Returned
       "Error processing search results: 'list' object has no attribute 'get'",
     ["https://www.gov.uk/api/search.json"]).
Proof.
  apply (search_gov_uk_body_not_an_object (H := Canned.search (JArr [JStr "/vat"]))
           (JStr "vat") [] ["https://www.gov.uk/api/search.json"]
           (mkResponse (Returned tt) "<html>https://www.gov.uk/api/search.json"
              (Returned (JArr [JStr "/vat"])))
           (JArr [JStr "/vat"])).
  - reflexivity.
  - reflexivity.
  - reflexivity.
  - intros d. discriminate.
Defined.


(** The same search, run: one page scraped, the absolute link left out. *)
Example search_gov_uk_run :
  GovUKSearch.search_gov_uk (H := Canned.search Canned.two_links) (JStr "vat") []
  = (Returned "[<html>https://www.gov.uk/vat]",
     ["https://www.gov.uk/vat"; "https://www.gov.uk/api/search.json"]).
Proof. reflexivity. Qed.

(** ** The three handlers as one registry-driven dispatcher *)

Section Registry.
Context {W : Type} `{Library W}.

(** Reduce, leaving the adapters and the texts folded. *)
Ltac registry_step :=
  cbn -[GovUKAcronyms.search_gov_uk_acronyms GovUKSearch.search_gov_uk
        Wikipedia.search_for_pages Wikipedia.get_page_content
        Wikipedia.summarise_page append py_str issubclass].

Lemma handle_request_registry (srv : server) (request : JSONRPCRequest)
    (context : LambdaContext) (w : W) :
  handle_request srv request context w = registry_dispatch srv request w.
Proof.
  rewrite handle_request_unfold. unfold registry_dispatch.
  destruct request as [m p i]. cbn [method params id].
  destruct srv; cbn [handle_request_try];
    unfold GovUKAcronyms.handle_request_try, GovUKSearch.handle_request_try,
      Wikipedia.handle_request_try, try_except;
    cbn [method params id];
    (destruct (m =? "tools/list"); [reflexivity|]);
    (destruct (m =? "tools/call");
     [| destruct (m =? "initialize"); [reflexivity|];
        destruct (m =? "ping"); reflexivity]);
    (destruct p as [[|kv p]|]; [reflexivity | | reflexivity]);
    unfold params_value, bind, lift, find_tool; cbn [params py_bool negb py_get];
    generalize (dict_get (kv :: p) "name" JNull) as name;
    generalize (dict_get (kv :: p) "arguments" (JObj [])) as arguments;
    intros arguments name.
  - destruct (eq_str name "search_gov_uk_acronym") eqn:E;
      registry_step; rewrite E; registry_step; [|reflexivity].
    destruct arguments; try reflexivity. registry_step.
    destruct (py_bool (dict_get d "acronym" JNull)); [|reflexivity].
    registry_step.
    destruct (GovUKAcronyms.search_gov_uk_acronyms _ w) as [[s|e] w'];
      rewrite ?issubclass_Exception; reflexivity.
  - destruct (eq_str name "search_gov_uk") eqn:E;
      registry_step; rewrite E; registry_step; [|reflexivity].
    destruct arguments; try reflexivity. registry_step.
    destruct (py_bool (dict_get d "search_term" JNull)); [|reflexivity].
    registry_step.
    destruct (GovUKSearch.search_gov_uk _ w) as [[s|e] w'];
      rewrite ?issubclass_Exception; reflexivity.
  - destruct (eq_str name "search_for_pages") eqn:E1;
      registry_step; rewrite ?E1; registry_step.
    { destruct arguments; try reflexivity. registry_step.
      destruct (py_bool (dict_get d "search_term" JNull)); [|reflexivity].
      registry_step.
      destruct (Wikipedia.search_for_pages _ w) as [[s|e] w'];
        rewrite ?issubclass_Exception; reflexivity. }
    destruct (eq_str name "get_page_content") eqn:E2;
      registry_step; rewrite ?E2; registry_step.
    { destruct arguments; try reflexivity. registry_step.
      destruct (py_bool (dict_get d "page_title" JNull)); [|reflexivity].
      registry_step.
      destruct (Wikipedia.get_page_content _ w) as [[s|e] w'];
        rewrite ?issubclass_Exception; reflexivity. }
    destruct (eq_str name "summarise_page") eqn:E3;
      registry_step; rewrite ?E3; registry_step.
    { destruct arguments; try reflexivity. registry_step.
      destruct (py_bool (dict_get d "topic" JNull)); [|reflexivity].
      registry_step.
      destruct (Wikipedia.summarise_page _ w) as [[s|e] w'];
        rewrite ?issubclass_Exception; reflexivity. }
    reflexivity.
Qed.

(** X16. The three hand-written handlers are one dispatcher: on every
    request and in every world, each server's [handle_request] answers as
    the registry-driven dispatcher does, which looks the tool up in the
    list of descriptors, checks the parameter its inputSchema requires and
    calls its adapter. *)
Theorem handlers_refine_registry (srv : server) (request : JSONRPCRequest)
    (context : LambdaContext) (w : W) :
  handle_request srv request context w = registry_dispatch srv request w.
Proof. apply handle_request_registry. Qed.

(** The adapters of the registry return. *)
Lemma find_tool_returns (srv : server) (name : json) (tool k : string)
    (f : json -> M W string) (v : json) :
  find_tool srv name = Some (tool, k, f) -> returns (f v).
Proof.
  unfold find_tool. destruct srv; registry_step.
  - destruct (eq_str name "search_gov_uk_acronym"); [|discriminate].
    registry_step. intros [= <- <- <-]. apply search_gov_uk_acronyms_returns.
  - destruct (eq_str name "search_gov_uk"); [|discriminate].
    registry_step. intros [= <- <- <-]. apply search_gov_uk_returns.
  - destruct (eq_str name "search_for_pages");
      [registry_step; intros [= <- <- <-]; apply search_for_pages_returns|].
    destruct (eq_str name "get_page_content");
      [registry_step; intros [= <- <- <-]; apply get_page_content_returns|].
    destruct (eq_str name "summarise_page");
      [registry_step; intros [= <- <- <-]; apply summarise_page_returns|].
    discriminate.
Qed.

(** Case analysis along the branches of [registry_dispatch]. *)
Ltac registry_cases E :=
  unfold registry_dispatch, error_reply in E;
  repeat match type of E with
    | context [if ?b then _ else _] => destruct b eqn:?
    | context [match ?x with _ => _ end] => destruct x eqn:?
    end.

(** X17. A request that is answered with an error made no lookup: whenever
    [handle_request] returns a JSONRPCError, the world is as it was before
    the call. *)
Theorem error_reply_without_lookup (srv : server) (request : JSONRPCRequest)
    (context : LambdaContext) (w w' : W) (v : string) (error : ErrorData)
    (i : RequestId) :
  handle_request srv request context w = (Returned (JSONRPCError v error i), w') ->
  w' = w.
Proof.
  rewrite handle_request_registry. intros E. registry_cases E;
    try congruence.
  match goal with
  | Hf : find_tool _ _ = Some (_, _, ?f), Hr : ?f ?x w = (Raised _, _) |- _ =>
      let Hs := fresh "Hs" in
      destruct (find_tool_returns _ _ _ _ _ x Hf w) as (? & ? & Hs);
      rewrite Hs in Hr; discriminate Hr
  end.
Qed.

(** X18. A [tools/call] never answers with [isError] true, and its two
    copies of the text agree: whenever the reply to a [tools/call] is a
    JSONRPCResponse, its result is [content] with one text element,
    [structuredContent] with the same string, and [isError] false. *)
Theorem tools_call_response_shape (srv : server) (request : JSONRPCRequest)
    (context : LambdaContext) (w w' : W) (v : string) (result : dict)
    (i : RequestId) :
  method request = "tools/call" ->
  handle_request srv request context w
  = (Returned (JSONRPCResponse v result i), w') ->
  exists s,
    result
    = [ ("content", JArr [JObj [("type", JStr "text"); ("text", JStr s)]]);
        ("structuredContent", JObj [("result", JStr s)]);
        ("isError", JBool false) ].
Proof.
  intros Hm. rewrite handle_request_registry. intros E.
  unfold registry_dispatch in E. rewrite Hm in E. cbn [String.eqb Ascii.eqb Bool.eqb] in E.
  registry_cases E; try discriminate E.
  injection E as _ <- _ _. eexists. reflexivity.
Qed.

(** X19. [arguments] that are present but not a mapping (null, a string, a
    list, a number) are not reported as invalid params: for a tool of the
    server the answer is the internal error -32603 with the text of the
    [AttributeError], "'<type>' object has no attribute 'get'", and the
    adapter is not called. *)
Theorem arguments_not_a_mapping (srv : server) (request : JSONRPCRequest)
    (context : LambdaContext) (w : W) (p : dict) (descriptor arguments : json) :
  method request = "tools/call" ->
  params request = Some p ->
  In descriptor (tools srv) ->
  lookup p "name" = Some (field descriptor "name") ->
  lookup p "arguments" = Some arguments ->
  (forall d, arguments <> JObj d) ->
  handle_request srv request context w
  = (Returned
       (JSONRPCError "2.0"
          (mkErrorData (-32603)
             ("'" ++ type_name arguments ++ "' object has no attribute 'get'"))
          (id request)),
     w).
Proof.
  intros Hm Hp Hd Hname Hargs Hno. rewrite handle_request_registry.
  destruct request as [m p' i]. cbn [method params id] in *. subst m p'.
  unfold registry_dispatch. cbn [method params id String.eqb Ascii.eqb Bool.eqb].
  destruct p as [|kv p]; [discriminate|].
  assert (Hn : dict_get (kv :: p) "name" JNull = field descriptor "name")
    by (unfold dict_get; rewrite Hname; reflexivity).
  assert (Ha : dict_get (kv :: p) "arguments" (JObj []) = arguments)
    by (unfold dict_get; rewrite Hargs; reflexivity).
  rewrite Hn, Ha.
  assert (Hf : exists tool k f,
             find_tool srv (field descriptor "name") = Some (tool, k, f)).
  { destruct srv; simpl in Hd;
      repeat (destruct Hd as [<- | Hd]; [do 3 eexists; reflexivity|]);
      destruct Hd. }
  destruct Hf as (tool & k & f & ->).
  destruct arguments; try reflexivity. destruct (Hno d). reflexivity.
Qed.

(** The names listed are the names of the registry. *)
Lemma listed_find_tool (srv : server) (name : json) :
  In name (map (fun d => field d "name") (tools srv))
  <-> exists tool k f, find_tool srv name = Some (tool, k, f).
Proof.
  split.
  - destruct srv; simpl; intros Hin;
      repeat (destruct Hin as [<- | Hin]; [do 3 eexists; reflexivity|]);
      destruct Hin.
  - intros (tool & k & f & Hf). revert Hf. unfold find_tool.
    destruct srv; registry_step;
      repeat match goal with
        | |- context [eq_str name ?t] =>
            let E := fresh "E" in
            destruct (eq_str name t) eqn:E;
            [apply eq_str_true in E; subst name; intros _; simpl; auto|]
        end.
    all: intros Hf; discriminate Hf.
Qed.

(** X20. [tools/list] answers, whatever the params, with the descriptors of
    the server and makes no lookup; the names it lists are distinct, and
    they are exactly the names [tools/call] accepts: a call with non-empty
    params is answered "Unknown tool: <name>" if and only if its name is
    not listed. *)
Theorem tools_list_registry (srv : server) (p : option dict) (i : RequestId)
    (context : LambdaContext) (w : W) :
  handle_request srv (mkRequest "tools/list" p i) context w
  = (Returned (JSONRPCResponse "2.0" [("tools", JArr (tools srv))] i), w)
  /\ NoDup (map (fun d => field d "name") (tools srv))
  /\ forall (kv : string * json) (p' : dict),
       In (dict_get (kv :: p') "name" JNull)
          (map (fun d => field d "name") (tools srv))
       <-> handle_request srv (mkRequest "tools/call" (Some (kv :: p')) i)
             context w
           <> (Returned
                 (JSONRPCError "2.0"
                    (mkErrorData (-32602)
                       ("Unknown tool: "
                          ++ py_str (dict_get (kv :: p') "name" JNull)))
                    i),
               w).
Proof.
  split; [destruct srv; reflexivity|]. split.
  - destruct srv; simpl;
      repeat (constructor; [simpl; intuition discriminate|]); constructor.
  - intros kv p'. rewrite handle_request_registry.
    unfold registry_dispatch, error_reply.
    cbn [method params id String.eqb Ascii.eqb Bool.eqb].
    generalize (dict_get (kv :: p') "name" JNull) as name.
    generalize (dict_get (kv :: p') "arguments" (JObj [])) as arguments.
    intros arguments name. split.
    + destruct srv; simpl; intros Hin;
        repeat (destruct Hin as [<- | Hin];
                [registry_step;
                 destruct arguments; try discriminate;
                 match goal with
                 | |- context [py_bool ?v] =>
                     destruct (py_bool v); [|discriminate]
                 end;
                 match goal with
                 | |- context [let (_, _) := ?c in _] =>
                     destruct c as [[?|?] ?]; discriminate
                 end|]);
        destruct Hin.
    + intros Hne. apply listed_find_tool.
      destruct (find_tool srv name) as [[[tool k] f]|]; [eauto|].
      destruct Hne. reflexivity.
Qed.

(** X21. A lookup that fails is reported as a success: when the first
    network or library call of a tool raises, the reply to the
    [tools/call] is still a JSONRPCResponse with [isError] false, and its
    text is the error message of the adapter. *)
Theorem lookup_failure_is_success (v : json) (i : RequestId)
    (context : LambdaContext) (w w1 : W) (e : exn) :
  py_bool v = true ->
  (glossary_request w = (Raised e, w1) ->
   handle_request gov_uk_acronyms
     (tool_call "search_gov_uk_acronym" "acronym" v i) context w
   = (Returned
        (text_reply
           (if issubclass (exn_class_of e) RequestException
            then "Error fetching data from UK government acronyms database: "
                   ++ exn_str e
            else "Error processing acronym lookup: " ++ exn_str e)
           i),
      w1))
  /\ (search_request v w = (Raised e, w1) ->
      handle_request gov_uk_search
        (tool_call "search_gov_uk" "search_term" v i) context w
      = (Returned
           (text_reply
              (if issubclass (exn_class_of e) RequestException
               then "Error searching gov.uk: " ++ exn_str e
               else "Error processing search results: " ++ exn_str e)
              i),
         w1))
  /\ (wikipedia_search v w = (Raised e, w1) ->
      handle_request wikipedia
        (tool_call "search_for_pages" "search_term" v i) context w
      = (Returned
           (text_reply ("Error getting results from wikipedia: " ++ exn_str e) i),
         w1))
  /\ (wikipedia_page v false w = (Raised e, w1) ->
      handle_request wikipedia
        (tool_call "get_page_content" "page_title" v i) context w
      = (Returned
           (text_reply ("Error getting results from wikipedia: " ++ exn_str e) i),
         w1))
  /\ (wikipedia_summary v false w = (Raised e, w1) ->
      handle_request wikipedia
        (tool_call "summarise_page" "topic" v i) context w
      = (Returned
           (text_reply ("Error getting results from wikipedia: " ++ exn_str e) i),
         w1)).
Proof.
  intros Hv.
  repeat apply conj; intros E; rewrite handle_request_registry;
    unfold registry_dispatch, tool_call, text_reply; registry_step;
    rewrite Hv.
  - unfold glossary_request in E.
    unfold GovUKAcronyms.search_gov_uk_acronyms.
    destruct (issubclass (exn_class_of e) RequestException) eqn:C;
      erewrite try_except_first_Raised
        by (eassumption
            || (simpl; rewrite C, ?issubclass_Exception; reflexivity));
      reflexivity.
  - unfold search_request in E. unfold GovUKSearch.search_gov_uk.
    destruct (issubclass (exn_class_of e) RequestException) eqn:C;
      erewrite try_except_first_Raised
        by (eassumption
            || (simpl; rewrite C, ?issubclass_Exception; reflexivity));
      reflexivity.
  - unfold Wikipedia.search_for_pages.
    erewrite try_except_first_Raised
      by (eassumption || (simpl; rewrite issubclass_Exception; reflexivity)).
    reflexivity.
  - unfold Wikipedia.get_page_content.
    erewrite try_except_first_Raised
      by (eassumption || (simpl; rewrite issubclass_Exception; reflexivity)).
    reflexivity.
  - unfold Wikipedia.summarise_page.
    erewrite try_except_first_Raised
      by (eassumption || (simpl; rewrite issubclass_Exception; reflexivity)).
    reflexivity.
Qed.

(** X22. [get_page_content] makes two lookups, the page and then its
    content, and a failure of the second is caught like one of the first:
    once the page is found, the answer is the content as the library gives
    it, or "Error getting results from wikipedia: <message>" when reading
    the content raises. *)
Theorem get_page_content_two_lookups (page_title : json) (w w1 : W)
    (page : WikipediaPage) :
  wikipedia_page page_title false w = (Returned page, w1) ->
  (forall content w2,
     page_content page w1 = (Returned content, w2) ->
     Wikipedia.get_page_content page_title w = (Returned content, w2))
  /\ (forall e w2,
        page_content page w1 = (Raised e, w2) ->
        Wikipedia.get_page_content page_title w
        = (Returned ("Error getting results from wikipedia: " ++ exn_str e), w2)).
Proof.
  intros Hpage. split.
  - intros content w2 Hc. unfold Wikipedia.get_page_content, try_except, bind.
    rewrite Hpage, Hc. reflexivity.
  - intros e w2 Hc. unfold Wikipedia.get_page_content, try_except, bind.
    rewrite Hpage, Hc. simpl. rewrite issubclass_Exception. reflexivity.
Qed.

End Registry.

Lemma error_reply_without_lookup_witness :
  ([] : Stub.world) = [].
Proof.
  apply (error_reply_without_lookup gov_uk_search
           (mkRequest "tools/call"
              (Some [("name", JStr "search_gov_uk"); ("arguments", JObj [])])
              (JInt 2))
           lambda_context [] [] "2.0"
           (mkErrorData (-32602) "search_term parameter is required") (JInt 2)).
  reflexivity.
Defined.

Lemma tools_call_response_shape_witness :
  exists s,
    [ ("content",
       JArr [JObj [("type", JStr "text");
                   ("text", JStr "NHS stands for National Health Service.")]]);
      ("structuredContent",
       JObj [("result", JStr "NHS stands for National Health Service.")]);
      ("isError", JBool false) ]
    = [ ("content", JArr [JObj [("type", JStr "text"); ("text", JStr s)]]);
        ("structuredContent", JObj [("result", JStr s)]);
        ("isError", JBool false) ].
Proof.
  apply (tools_call_response_shape gov_uk_acronyms
           (Stub.call "search_gov_uk_acronym" [("acronym", JStr "nhs")])
           lambda_context ([] : Stub.world)
           ["https://acronyms.toolsforcivilservants.co.uk"] "2.0" _ (JInt 1)).
  - reflexivity.
  - reflexivity.
Defined.

Lemma arguments_not_a_mapping_witness :
  handle_request wikipedia
    (mkRequest "tools/call"
       (Some [("name", JStr "summarise_page"); ("arguments", JNull)]) (JInt 7))
    lambda_context ([] : Stub.world)
  = (Returned
       (JSONRPCError "2.0"
          (mkErrorData (-32603) "'NoneType' object has no attribute 'get'")
          (JInt 7)),
     []).
Proof.
  apply (arguments_not_a_mapping wikipedia
           (mkRequest "tools/call"
              (Some [("name", JStr "summarise_page"); ("arguments", JNull)])
              (JInt 7))
           lambda_context []
           [("name", JStr "summarise_page"); ("arguments", JNull)]
           (nth 2 Wikipedia.tools JNull) JNull).
  - reflexivity.
  - reflexivity.
  - right. right. left. reflexivity.
  - reflexivity.
  - reflexivity.
  - intros d. discriminate.
Defined.

Lemma lookup_failure_is_success_witness :
  handle_request wikipedia
    (tool_call "summarise_page" "topic" (JStr "Turing") (JInt 8))
    lambda_context ([] : Stub.world)
  = (Returned
       (text_reply
          "Error getting results from wikipedia: Page id does not match any pages."
          (JInt 8)),
     ["summary"]).
Proof.
  destruct (lookup_failure_is_success (W := Stub.world) (JStr "Turing") (JInt 8)
              lambda_context [] ["summary"]
              (mkExn (LibraryError "PageError")
                 "Page id does not match any pages."))
    as (_ & _ & _ & _ & Hsummary).
  - reflexivity.
  - apply Hsummary. reflexivity.
Defined.

Lemma get_page_content_two_lookups_witness :
  Wikipedia.get_page_content (H := Canned.unreadable) (JStr "Alan Turing") []
  = (Returned "Error getting results from wikipedia: Searching took too long.",
     ["content"; "page"]).
Proof.
  apply (proj2 (get_page_content_two_lookups (H := Canned.unreadable)
                  (JStr "Alan Turing") [] ["page"] "Alan Turing" eq_refl)
           (mkExn (LibraryError "HTTPTimeoutError") "Searching took too long.")).
  reflexivity.
Defined.

Lemma scrape_url_answer_witness :
  GovUKSearch.scrape_url (H := Canned.not_found) "https://www.gov.uk/vat" []
  = (Returned "Error scraping page: 404 Client Error: Not Found for url",
     ["https://www.gov.uk/vat"]).
Proof.
  apply (proj2 (proj2 (scrape_url_answer (H := Canned.not_found)
                         "https://www.gov.uk/vat" []))
           (mkResponse
              (Raised (mkExn HTTPError "404 Client Error: Not Found for url"))
              "<html>https://www.gov.uk/vat" (Returned JNull))).
  reflexivity.
Defined.

(** The loop on a site where the second page cannot be reached. *)
Example scrape_each_run :
  GovUKSearch.scrape_each (H := Canned.patchy)
    ["https://www.gov.uk/vat"; "https://www.gov.uk/gone"; "https://www.gov.uk/tax"]
    [] []
  = (Returned
       ["<html>https://www.gov.uk/vat";
        "Error scraping page: Connection refused";
        "<html>https://www.gov.uk/tax"],
     ["https://www.gov.uk/tax"; "https://www.gov.uk/gone"; "https://www.gov.uk/vat"]).
Proof. reflexivity. Qed.

(** The rule for required parameters does not hold without the condition
    on [arguments]: with [arguments] null the parameter [topic] is absent
    from them, and the answer is the internal error -32603, not
    INVALID_PARAMS. *)
Lemma missing_argument_invalid_params_counterexample :
  ~ missing_argument_rejected wikipedia
      (mkRequest "tools/call"
         (Some [("name", JStr "summarise_page"); ("arguments", JNull)]) (JInt 7))
      lambda_context ([] : Stub.world).
Proof.
  intros Hrule.
  specialize (Hrule [("name", JStr "summarise_page"); ("arguments", JNull)]
                (nth 2 Wikipedia.tools JNull) "topic"
                eq_refl eq_refl
                (or_intror (or_intror (or_introl eq_refl)))
                eq_refl (or_introl eq_refl) (or_introl eq_refl)).
  discriminate Hrule.
Qed.
